(** * simple-storage-service: a service-account wrapper around a cloud
      object-storage client

    Embedding of [sotrage_service/storage_config.py] and
    [sotrage_service/service_account_storage.py].

    The Python code is a sequence of calls into libraries that are not part
    of the repository (the storage SDK, the auth library, [json], [open],
    [logging]).  Every such call is a field of the record [Platform]: it may
    change the outside world and it may raise.  The methods of
    [ServiceAccountStorage] are written once, over an arbitrary [Platform],
    in a small monad that threads the outside world, propagates exceptions
    and records what the method did (the calls it made and the lines it
    logged).  A second part, [Gcs], is one concrete platform: a finite map
    of buckets with fault injection, on which statements about the state of
    the service are made. *)

From Stdlib Require Import ZArith Lia Ascii.
From stdpp Require Import gmap strings list.

Open Scope string_scope.
Open Scope list_scope.

(** ** Exceptions and results *)

(** An instance of a subclass of [Exception]: its class name and [str(e)]. *)
Record exn := Exn { exn_class : string; exn_msg : string }.

(** [str(e)] *)
Definition str (e : exn) : string := exn_msg e.

Inductive result (A : Type) : Type :=
| Ok (a : A)
| Raise (e : exn).
Arguments Ok {A} a.
Arguments Raise {A} e.

Definition result_bind {A B} (r : result A) (k : A -> result B) : result B :=
  match r with
  | Ok a => k a
  | Raise e => Raise e
  end.

Declare Scope result_scope.
Delimit Scope result_scope with result.
Notation "x <-? r ; k" := (result_bind r (fun x => k))
  (at level 100, r at next level, right associativity) : result_scope.

(** ** storage_config.py *)

Record action := Action {
  action_type : string;
  storageClass : option string
}.

Record condition := Condition {
  age : Z;
  matchesStorageClass : option (list string)
}.

Record lifecycle_rule := LifecycleRule {
  rule_action : action;
  rule_condition : condition
}.

Record Config := {
  cfg_location : string;
  cfg_default_storage_class : string;
  cfg_labels : gmap string string;
  cfg_lifecycle_rules : list lifecycle_rule
}.

(** What [os.getenv(key, 30)] evaluates to: the variable's text, or the
    integer given as default. *)
Inductive str_or_int :=
| IsStr (s : string)
| IsInt (z : Z).

Section StorageConfig.
(** [os.environ] when the module is imported. *)
Variable environ : gmap string string.
(** Python's built-in [int] applied to a [str]; it raises [ValueError] on
    text that is not an integer literal. *)
Variable int_of_str : string -> result Z.

(** [os.getenv(key, default)] with a [str] default *)
Definition getenv (key default : string) : string :=
  match environ !! key with
  | Some v => v
  | None => default
  end.

(** [os.getenv(key, default)] with an [int] default *)
Definition getenv_or_int (key : string) (default : Z) : str_or_int :=
  match environ !! key with
  | Some v => IsStr v
  | None => IsInt default
  end.

(** [int(x)] *)
Definition int (x : str_or_int) : result Z :=
  match x with
  | IsInt z => Ok z
  | IsStr s => int_of_str s
  end.

(** The dictionary literal is evaluated top to bottom; the three [int]
    calls are the only sub-expressions that can raise. *)
Definition STORAGE_CONFIG : result Config :=
  (let location := getenv "GCS_LOCATION" "asia-south1" in
   let default_storage_class := getenv "GCS_STORAGE_CLASS" "STANDARD" in
   let labels : gmap string string :=
     <["environment" := getenv "GCS_ENV" "development"]>
       (<["project" := getenv "GCS_PROJECT" "dust-info"]> ∅) in
   nearline <-? int (getenv_or_int "GCS_NEARLINE_AGE_DAYS" 30);
   coldline <-? int (getenv_or_int "GCS_COLDLINE_AGE_DAYS" 90);
   delete <-? int (getenv_or_int "GCS_DELETE_AGE_DAYS" 365);
   Ok {| cfg_location := location;
         cfg_default_storage_class := default_storage_class;
         cfg_labels := labels;
         cfg_lifecycle_rules :=
           [ LifecycleRule (Action "SetStorageClass" (Some "NEARLINE"))
                           (Condition nearline (Some ["STANDARD"]));
             LifecycleRule (Action "SetStorageClass" (Some "COLDLINE"))
                           (Condition coldline (Some ["NEARLINE"]));
             LifecycleRule (Action "Delete" None)
                           (Condition delete None) ] |})%result.
End StorageConfig.

(** ** Objects of the storage SDK held by the program *)

(** A [storage.Bucket] object as the program sees it: the name, the
    properties last loaded from or written to the service, and the names of
    the properties assigned locally and not yet sent ([_changes]).  All
    handles of one service object belong to its single client, so the client
    is not stored. *)
Record Bucket := {
  bucket_name : string;
  location : option string;
  storage_class : option string;
  labels : gmap string string;
  lifecycle_rules : list lifecycle_rule;
  changes : gset string
}.

(** A [storage.Blob] object. *)
Record Blob := { blob_bucket : Bucket; blob_name : string }.

(** [bucket.blob(name)]: builds the object locally, without a request. *)
Definition bucket_blob (bucket : Bucket) (name : string) : Blob :=
  {| blob_bucket := bucket; blob_name := name |}.

(** [bucket.storage_class = v] *)
Definition set_storage_class (v : string) (b : Bucket) : Bucket :=
  {| bucket_name := bucket_name b; location := location b;
     storage_class := Some v; labels := labels b;
     lifecycle_rules := lifecycle_rules b;
     changes := {["storageClass"]} ∪ changes b |}.

(** [bucket.labels = m] *)
Definition set_labels (m : gmap string string) (b : Bucket) : Bucket :=
  {| bucket_name := bucket_name b; location := location b;
     storage_class := storage_class b; labels := m;
     lifecycle_rules := lifecycle_rules b;
     changes := {["labels"]} ∪ changes b |}.

(** [bucket.lifecycle_rules = rules] *)
Definition set_lifecycle_rules (rules : list lifecycle_rule) (b : Bucket) : Bucket :=
  {| bucket_name := bucket_name b; location := location b;
     storage_class := storage_class b; labels := labels b;
     lifecycle_rules := rules;
     changes := {["lifecycle"]} ∪ changes b |}.

(** [datetime.timedelta], normalised as Python does: whole days and the
    seconds within the day. *)
Record timedelta := { td_days : Z; td_seconds : Z }.

(** [timedelta(minutes=m)] *)
Definition timedelta_minutes (m : Z) : timedelta :=
  {| td_days := (m * 60) `div` 86400; td_seconds := (m * 60) `mod` 86400 |}.

Definition total_seconds (d : timedelta) : Z := td_days d * 86400 + td_seconds d.

(** A file-system path as [pathlib] holds it: its components. *)
Definition Path := list string.

(** ** What a method does: calls into libraries, and log lines *)

Inductive call :=
| Open (path : Path)
| JsonLoad
| Close
| GetItem (key : string)
| FromServiceAccountInfo
| NewClient
| ClientGetBucket (name : string)
| ClientCreateBucket (name : string) (loc : string)
| ClientBucket (name : string)
| BucketExists (bucket : Bucket)
| BucketCreate (bucket : Bucket) (loc : string)
| BucketPatch (bucket : Bucket)
| BucketBlob (bucket : Bucket) (name : string)
| BlobUploadFromFilename (blob : Blob) (filename : string)
| BlobDownloadToFilename (blob : Blob) (filename : string)
| BlobDelete (blob : Blob)
| BucketListBlobs (bucket : Bucket)
| BlobGenerateSignedUrl (blob : Blob)
    (version : string) (expiration : timedelta) (method : string).

Inductive level := INFO | ERROR.

Inductive event :=
| Called (c : call) (raised : option exn)
| Logged (lvl : level) (msg : string).

(** Calls of the storage SDK, as opposed to the file and credential calls of
    the constructor. *)
Definition is_sdk_call (c : call) : bool :=
  match c with
  | Open _ | JsonLoad | Close | GetItem _ | FromServiceAccountInfo | NewClient => false
  | _ => true
  end.

(** SDK calls that only build a local handle ([client.bucket], [bucket.blob]). *)
Definition is_handle (c : call) : bool :=
  match c with
  | ClientBucket _ | BucketBlob _ _ => true
  | _ => false
  end.

(** SDK calls that do the work of a method: all but handle construction. *)
Definition is_operation (c : call) : bool := is_sdk_call c && negb (is_handle c).

Definition is_open (c : call) : bool :=
  match c with Open _ => true | _ => false end.

Definition calls (t : list event) : list call :=
  omap (fun ev => match ev with Called c _ => Some c | Logged _ _ => None end) t.

Definition sdk_calls (t : list event) : list call := List.filter is_sdk_call (calls t).

Definition operations (t : list event) : list call := List.filter is_operation (calls t).

Definition opens (t : list event) : list call := List.filter is_open (calls t).

(** The exceptions raised by the calls of a trace, in order. *)
Definition failures (t : list event) : list exn :=
  omap (fun ev => match ev with Called _ r => r | Logged _ _ => None end) t.

Definition errors_logged (t : list event) : list string :=
  omap (fun ev => match ev with Logged ERROR m => Some m | _ => None end) t.

(** ** The libraries the program calls *)

Record Platform := {
  (** everything outside the process: the storage service, the file system *)
  world : Type;
  File : Type;
  Info : Type;
  Value : Type;
  Credentials : Type;
  Client : Type;
  (** [open(path)] *)
  builtin_open : Path -> world -> result File * world;
  (** [json.load(f)] *)
  json_load : File -> world -> result Info * world;
  (** [f.__exit__], run when the [with] block is left *)
  file_close : File -> world -> result unit * world;
  (** [info[key]] *)
  getitem : Info -> string -> world -> result Value * world;
  (** [service_account.Credentials.from_service_account_info(info)] *)
  from_service_account_info : Info -> world -> result Credentials * world;
  (** [storage.Client(project=p, credentials=c)] *)
  storage_Client : Value -> Credentials -> world -> result Client * world;
  (** [client.get_bucket(name)] *)
  client_get_bucket : Client -> string -> world -> result Bucket * world;
  (** [client.create_bucket(name, location=loc)] *)
  client_create_bucket : Client -> string -> string -> world -> result Bucket * world;
  (** [client.bucket(name)] *)
  client_bucket : Client -> string -> world -> result Bucket * world;
  (** [bucket.exists()] *)
  bucket_exists : Bucket -> world -> result bool * world;
  (** [bucket.create(location=loc)]; the object is updated in place, which
      is modelled by returning it *)
  bucket_create : Bucket -> string -> world -> result Bucket * world;
  (** [bucket.patch()]; updates the object in place as well *)
  bucket_patch : Bucket -> world -> result Bucket * world;
  (** [blob.upload_from_filename(filename)] *)
  blob_upload_from_filename : Blob -> string -> world -> result unit * world;
  (** [blob.download_to_filename(filename)] *)
  blob_download_to_filename : Blob -> string -> world -> result unit * world;
  (** [blob.delete()] *)
  blob_delete : Blob -> world -> result unit * world;
  (** [bucket.list_blobs()], iterated to the end *)
  bucket_list_blobs : Bucket -> world -> result (list Blob) * world;
  (** [blob.generate_signed_url(version=v, expiration=d, method=m)] *)
  blob_generate_signed_url :
    Blob -> string -> timedelta -> string -> world -> result string * world
}.

(** ** [str.split] with a one-character separator, and [l[-1]] *)

(** [s.split(sep)] for a separator of one ASCII character.  Python splits a
    sequence of code points and this splits the UTF-8 bytes; for an ASCII
    separator the pieces are the same. *)
Fixpoint split (sep : ascii) (s : string) : list string :=
  match s with
  | EmptyString => [EmptyString]
  | String c s' =>
      if Ascii.eqb c sep then EmptyString :: split sep s'
      else match split sep s' with
           | piece :: pieces => String c piece :: pieces
           | [] => [String c EmptyString]
           end
  end.

(** [l[-1]]: the last item, [IndexError] on an empty list. *)
Definition getitem_last (l : list string) : result string :=
  match last l with
  | Some x => Ok x
  | None => Raise (Exn "IndexError" "list index out of range")
  end.

(** ** The monad of a method body *)

Section Service.
Variable P : Platform.

(** A computation takes the outside world and gives back its outcome, the
    new world, and what it called and logged on the way. *)
Definition M (A : Type) : Type := world P -> result A * world P * list event.

Definition ret {A} (a : A) : M A := fun w => (Ok a, w, []).

Definition raise {A} (e : exn) : M A := fun w => (Raise e, w, []).

Definition bind {A B} (m : M A) (k : A -> M B) : M B :=
  fun w =>
    match m w with
    | (Ok a, w1, t1) =>
        match k a w1 with
        | (r, w2, t2) => (r, w2, t1 ++ t2)
        end
    | (Raise e, w1, t1) => (Raise e, w1, t1)
    end.

(** [try: body  except Exception as e: handler] *)
Definition try_except {A} (body : M A) (handler : exn -> M A) : M A :=
  fun w =>
    match body w with
    | (Ok a, w1, t1) => (Ok a, w1, t1)
    | (Raise e, w1, t1) =>
        match handler e w1 with
        | (r, w2, t2) => (r, w2, t1 ++ t2)
        end
    end.

(** A call into a library: run it on the world and record it. *)
Definition extcall {A} (c : call) (op : world P -> result A * world P) : M A :=
  fun w =>
    match op w with
    | (Ok a, w1) => (Ok a, w1, [Called c None])
    | (Raise e, w1) => (Raise e, w1, [Called c (Some e)])
    end.

(** A call that builds an object locally and cannot fail. *)
Definition local {A} (c : call) (a : A) : M A := fun w => (Ok a, w, [Called c None]).

(** A pure expression that may raise. *)
Definition lift {A} (r : result A) : M A := fun w => (r, w, []).

Definition log (lvl : level) (msg : string) : M unit := fun w => (Ok tt, w, [Logged lvl msg]).

(** [with ctx as x: body], for a context manager whose exit is [exit]:
    the exit runs however the body ends, and an exception it raises
    replaces the body's outcome. *)
Definition with_exit {A} (body : M A) (exit : M unit) : M A :=
  fun w =>
    match body w with
    | (r, w1, t1) =>
        match exit w1 with
        | (Ok _, w2, t2) => (r, w2, t1 ++ t2)
        | (Raise e, w2, t2) => (Raise e, w2, t1 ++ t2)
        end
    end.

Definition outcome {A} (x : result A * world P * list event) : result A := x.1.1.
Definition world_after {A} (x : result A * world P * list event) : world P := x.1.2.
Definition trace {A} (x : result A * world P * list event) : list event := x.2.

Notation "x <- m ;; k" := (bind m (fun x => k))
  (at level 100, m at next level, right associativity).
Notation "m ;; k" := (bind m (fun _ => k))
  (at level 100, right associativity).

(** ** service_account_storage.py *)

Record ServiceAccountStorage := {
  config : Config;
  project_id : Value P;
  credentials : Credentials P;
  client : Client P
}.

(** [__init__].  [STORAGE_CONFIG] is the value the configuration module
    was imported with, [root] the resolved directory
    [Path(__file__).parent.parent.parent.parent.resolve()]. *)
Definition init (STORAGE_CONFIG : Config) (root : Path) : M ServiceAccountStorage :=
  try_except
    (let sa_path := root ++ ["common"; "dastavez-sa.json"] in
     service_account_info <-
       (f <- extcall (Open sa_path) (builtin_open P sa_path);;
        with_exit (extcall JsonLoad (json_load P f))
                  (extcall Close (file_close P f)));;
     project_id <- extcall (GetItem "project_id") (getitem P service_account_info "project_id");;
     credentials <- extcall FromServiceAccountInfo
                      (from_service_account_info P service_account_info);;
     client <- extcall NewClient (storage_Client P project_id credentials);;
     ret {| config := STORAGE_CONFIG; project_id := project_id;
            credentials := credentials; client := client |})
    (fun e =>
       log ERROR ("Failed to initialize storage service: " +:+ str e);;
       raise e).

Variable self : ServiceAccountStorage.

Definition get_bucket (bucket_name : string) : M Bucket :=
  try_except
    (bucket <- extcall (ClientGetBucket bucket_name)
                 (client_get_bucket P (client self) bucket_name);;
     ret bucket)
    (fun e =>
       log ERROR ("Failed to get bucket " +:+ bucket_name +:+ ": " +:+ str e);;
       raise e).

(** [location] is [None] when the caller leaves the argument out. *)
Definition create_bucket (bucket_name : string) (location : option string) : M Bucket :=
  let location := default "US" location in
  try_except
    (bucket <- extcall (ClientCreateBucket bucket_name location)
                 (client_create_bucket P (client self) bucket_name location);;
     log INFO ("Created bucket " +:+ bucket_name);;
     ret bucket)
    (fun e =>
       log ERROR ("Failed to create bucket " +:+ bucket_name +:+ ": " +:+ str e);;
       raise e).

Definition get_or_create_bucket (bucket_name : string) : M Bucket :=
  try_except
    (bucket <- extcall (ClientBucket bucket_name) (client_bucket P (client self) bucket_name);;
     exists_ <- extcall (BucketExists bucket) (bucket_exists P bucket);;
     if (exists_ : bool) then
       log INFO ("Using existing bucket: " +:+ bucket_name);;
       ret bucket
     else
       bucket <- extcall (ClientBucket bucket_name) (client_bucket P (client self) bucket_name);;
       bucket <- extcall (BucketCreate bucket (cfg_location (config self)))
                   (bucket_create P bucket (cfg_location (config self)));;
       let bucket := set_storage_class (cfg_default_storage_class (config self)) bucket in
       let bucket := set_labels (cfg_labels (config self)) bucket in
       bucket <- extcall (BucketPatch bucket) (bucket_patch P bucket);;
       let bucket := set_lifecycle_rules (cfg_lifecycle_rules (config self)) bucket in
       bucket <- extcall (BucketPatch bucket) (bucket_patch P bucket);;
       log INFO ("Created new bucket: " +:+ bucket_name +:+ " in " +:+ cfg_location (config self)
                 +:+ " with storage class " +:+ cfg_default_storage_class (config self));;
       ret bucket)
    (fun e =>
       log ERROR ("Error with bucket " +:+ bucket_name +:+ ": " +:+ str e);;
       raise e).

Definition upload_file (bucket_name file_path : string) : M (option string) :=
  try_except
    (bucket <- get_or_create_bucket bucket_name;;
     name <- lift (getitem_last (split "/" file_path));;
     blob <- local (BucketBlob bucket name) (bucket_blob bucket name);;
     extcall (BlobUploadFromFilename blob file_path) (blob_upload_from_filename P blob file_path);;
     log INFO ("Successfully uploaded " +:+ file_path +:+ " to " +:+ bucket_name);;
     ret (Some (blob_name blob)))
    (fun e =>
       log ERROR ("Failed to upload file " +:+ file_path +:+ ": " +:+ str e);;
       ret None).

Definition download_file (bucket_name source_blob_name destination_file_path : string) : M unit :=
  try_except
    (bucket <- get_bucket bucket_name;;
     blob <- local (BucketBlob bucket source_blob_name) (bucket_blob bucket source_blob_name);;
     extcall (BlobDownloadToFilename blob destination_file_path)
       (blob_download_to_filename P blob destination_file_path);;
     log INFO ("Downloaded " +:+ source_blob_name +:+ " to " +:+ destination_file_path))
    (fun e =>
       log ERROR ("Failed to download file " +:+ source_blob_name +:+ ": " +:+ str e);;
       raise e).

Definition delete_file (bucket_name blob_name : string) : M unit :=
  try_except
    (bucket <- get_bucket bucket_name;;
     blob <- local (BucketBlob bucket blob_name) (bucket_blob bucket blob_name);;
     extcall (BlobDelete blob) (blob_delete P blob);;
     log INFO ("Deleted file " +:+ blob_name +:+ " from bucket " +:+ bucket_name))
    (fun e =>
       log ERROR ("Failed to delete file " +:+ blob_name +:+ ": " +:+ str e);;
       raise e).

Definition list_files (bucket_name : string) : M (list string) :=
  try_except
    (bucket <- extcall (ClientBucket bucket_name) (client_bucket P (client self) bucket_name);;
     blobs <- extcall (BucketListBlobs bucket) (bucket_list_blobs P bucket);;
     ret (map blob_name blobs))
    (fun e =>
       log ERROR ("Failed to list files: " +:+ str e);;
       ret []).

Definition get_signed_url (bucket_name blob_name : string) : M (option string) :=
  try_except
    (bucket <- extcall (ClientBucket bucket_name) (client_bucket P (client self) bucket_name);;
     blob <- local (BucketBlob bucket blob_name) (bucket_blob bucket blob_name);;
     url <- extcall (BlobGenerateSignedUrl blob "v4" (timedelta_minutes 15) "GET")
              (blob_generate_signed_url P blob "v4" (timedelta_minutes 15) "GET");;
     ret (Some url))
    (fun e =>
       log ERROR ("Failed to generate signed URL: " +:+ str e);;
       ret None).

(** *** The public methods, as one type *)

Inductive method :=
| GetBucket (bucket_name : string)
| CreateBucket (bucket_name : string) (location : option string)
| GetOrCreateBucket (bucket_name : string)
| UploadFile (bucket_name file_path : string)
| DownloadFile (bucket_name source_blob_name destination_file_path : string)
| DeleteFile (bucket_name blob_name : string)
| ListFiles (bucket_name : string)
| GetSignedUrl (bucket_name blob_name : string).

(** What a method hands back to its caller. *)
Inductive retval :=
| RetBucket (b : Bucket)
| RetNone
| RetStr (s : string)
| RetList (l : list string).

Definition of_option (o : option string) : retval :=
  match o with
  | Some s => RetStr s
  | None => RetNone
  end.

Definition fmap_M {A B} (f : A -> B) (m : M A) : M B :=
  fun w =>
    match m w with
    | (Ok a, w1, t) => (Ok (f a), w1, t)
    | (Raise e, w1, t) => (Raise e, w1, t)
    end.

Definition invoke (m : method) : M retval :=
  match m with
  | GetBucket b => fmap_M RetBucket (get_bucket b)
  | CreateBucket b l => fmap_M RetBucket (create_bucket b l)
  | GetOrCreateBucket b => fmap_M RetBucket (get_or_create_bucket b)
  | UploadFile b p => fmap_M of_option (upload_file b p)
  | DownloadFile b s d => fmap_M (fun _ => RetNone) (download_file b s d)
  | DeleteFile b n => fmap_M (fun _ => RetNone) (delete_file b n)
  | ListFiles b => fmap_M RetList (list_files b)
  | GetSignedUrl b n => fmap_M of_option (get_signed_url b n)
  end.
End Service.

Arguments ret {P A} a.
Arguments raise {P A} e.
Arguments outcome {P A} x.
Arguments world_after {P A} x.
Arguments trace {P A} x.

(** ** A concrete platform: buckets in a finite map, with fault injection

    The storage service and the SDK are not part of the repository.  This
    module is a small model of them, after the SDK's documented behaviour:
    [client.bucket] and [bucket.blob] build objects locally; [exists]
    reports whether the bucket is there; [create] adds a bucket with the
    service's defaults and fails on a name that is taken; [patch] writes the
    properties assigned since the object was loaded; the blob operations
    read and write the blobs of a bucket.  Every call that does a request,
    reads a file or builds credentials can also be made to fail, by a
    schedule of faults carried in the state. *)

Module Gcs.

(** A bucket as the service stores it. *)
Record bucket_state := {
  st_location : string;
  st_storage_class : string;
  st_labels : gmap string string;
  st_lifecycle : list lifecycle_rule;
  st_blobs : gmap string string
}.

Record gcs_client := { client_project : string; client_credentials : gmap string string }.

(** The service and the local disk. *)
Record store := {
  (** the buckets of the service, by name *)
  buckets : gmap string bucket_state;
  (** local files read and written by uploads and downloads *)
  files : gmap string string;
  (** JSON documents on disk, by the text of their absolute path: the
      object a file parses to, [None] for a file that is not a JSON
      object *)
  documents : gmap string (option (gmap string string))
}.

(** The text of an absolute path. *)
Definition render (p : Path) : string :=
  foldr (fun component rest => "/" +:+ component +:+ rest) "" p.

Record cloud := {
  state : store;
  (** the outcome forced on the coming library calls: [Some e] makes the
      next call raise [e] without effect, [None] lets it run; past the end
      of the list every call runs *)
  faults : list (option exn)
}.

Definition with_buckets (bs : gmap string bucket_state) (w : store) : store :=
  {| buckets := bs; files := files w; documents := documents w |}.

Definition with_files (fs : gmap string string) (w : store) : store :=
  {| buckets := buckets w; files := fs; documents := documents w |}.

(** A call that can be made to fail consumes one entry of [faults]. *)
Definition step {A} (op : store -> result A * store) (c : cloud) : result A * cloud :=
  match faults c with
  | Some e :: rest => (Raise e, {| state := state c; faults := rest |})
  | _ =>
      match op (state c) with
      | (r, s) => (r, {| state := s; faults := tail (faults c) |})
      end
  end.

Definition NotFound (what : string) : exn := Exn "NotFound" ("404 " +:+ what +:+ " not found").
Definition Conflict (what : string) : exn := Exn "Conflict" ("409 " +:+ what +:+ " already exists").

(** The object the SDK builds from a bucket resource. *)
Definition loaded (name : string) (st : bucket_state) : Bucket :=
  {| bucket_name := name; location := Some (st_location st);
     storage_class := Some (st_storage_class st); labels := st_labels st;
     lifecycle_rules := st_lifecycle st; changes := ∅ |}.

(** The object [client.bucket(name)] builds: a name and nothing loaded. *)
Definition handle (name : string) : Bucket :=
  {| bucket_name := name; location := None; storage_class := None; labels := ∅;
     lifecycle_rules := []; changes := ∅ |}.

(** A bucket right after creation in [loc]. *)
Definition fresh (loc : string) : bucket_state :=
  {| st_location := loc; st_storage_class := "STANDARD"; st_labels := ∅;
     st_lifecycle := []; st_blobs := ∅ |}.

(** The properties named in [changes b] overwrite the stored ones. *)
Definition patched (b : Bucket) (st : bucket_state) : bucket_state :=
  {| st_location := st_location st;
     st_storage_class :=
       if decide ("storageClass" ∈ changes b)
       then default (st_storage_class st) (storage_class b)
       else st_storage_class st;
     st_labels := if decide ("labels" ∈ changes b) then labels b else st_labels st;
     st_lifecycle :=
       if decide ("lifecycle" ∈ changes b) then lifecycle_rules b else st_lifecycle st;
     st_blobs := st_blobs st |}.

Definition with_blobs (bl : gmap string string) (st : bucket_state) : bucket_state :=
  {| st_location := st_location st; st_storage_class := st_storage_class st;
     st_labels := st_labels st; st_lifecycle := st_lifecycle st; st_blobs := bl |}.

Definition do_open (p : Path) (w : store) : result Path * store :=
  match documents w !! render p with
  | Some _ => (Ok p, w)
  | None => (Raise (Exn "FileNotFoundError" "No such file or directory"), w)
  end.

Definition do_json_load (f : Path) (w : store) : result (gmap string string) * store :=
  match documents w !! render f with
  | Some (Some d) => (Ok d, w)
  | _ => (Raise (Exn "JSONDecodeError" "Expecting value"), w)
  end.

Definition do_getitem (d : gmap string string) (key : string) (w : cloud) : result string * cloud :=
  match d !! key with
  | Some v => (Ok v, w)
  | None => (Raise (Exn "KeyError" ("'" +:+ key +:+ "'")), w)
  end.

Definition do_get_bucket (name : string) (w : store) : result Bucket * store :=
  match buckets w !! name with
  | Some st => (Ok (loaded name st), w)
  | None => (Raise (NotFound name), w)
  end.

Definition do_create (name loc : string) (w : store) : result Bucket * store :=
  match buckets w !! name with
  | Some _ => (Raise (Conflict name), w)
  | None => (Ok (loaded name (fresh loc)), with_buckets (<[name := fresh loc]> (buckets w)) w)
  end.

Definition do_exists (b : Bucket) (w : store) : result bool * store :=
  (Ok (bool_decide (is_Some (buckets w !! bucket_name b))), w).

Definition do_patch (b : Bucket) (w : store) : result Bucket * store :=
  match buckets w !! bucket_name b with
  | Some st =>
      (Ok (loaded (bucket_name b) (patched b st)),
       with_buckets (<[bucket_name b := patched b st]> (buckets w)) w)
  | None => (Raise (NotFound (bucket_name b)), w)
  end.

Definition do_upload (blob : Blob) (filename : string) (w : store) : result unit * store :=
  match files w !! filename with
  | None => (Raise (Exn "FileNotFoundError" "No such file or directory"), w)
  | Some data =>
      let name := bucket_name (blob_bucket blob) in
      match buckets w !! name with
      | None => (Raise (NotFound name), w)
      | Some st =>
          (Ok tt, with_buckets
                    (<[name := with_blobs (<[blob_name blob := data]> (st_blobs st)) st]> (buckets w)) w)
      end
  end.

Definition find_blob (blob : Blob) (w : store) : option string :=
  st ← buckets w !! bucket_name (blob_bucket blob); st_blobs st !! blob_name blob.

Definition do_download (blob : Blob) (filename : string) (w : store) : result unit * store :=
  match find_blob blob w with
  | Some data => (Ok tt, with_files (<[filename := data]> (files w)) w)
  | None => (Raise (NotFound (blob_name blob)), w)
  end.

Definition do_delete (blob : Blob) (w : store) : result unit * store :=
  let name := bucket_name (blob_bucket blob) in
  match buckets w !! name with
  | Some st =>
      match st_blobs st !! blob_name blob with
      | Some _ =>
          (Ok tt, with_buckets
                    (<[name := with_blobs (delete (blob_name blob) (st_blobs st)) st]> (buckets w)) w)
      | None => (Raise (NotFound (blob_name blob)), w)
      end
  | None => (Raise (NotFound name), w)
  end.

Definition do_list_blobs (b : Bucket) (w : store) : result (list Blob) * store :=
  match buckets w !! bucket_name b with
  | Some st => (Ok (map (fun kv => bucket_blob b kv.1) (map_to_list (st_blobs st))), w)
  | None => (Raise (NotFound (bucket_name b)), w)
  end.

(** The URL is kept symbolic: the text shows what was signed. *)
Definition do_sign (blob : Blob) (version : string) (expiration : timedelta) (method : string)
    (w : store) : result string * store :=
  (Ok ("https://storage.googleapis.com/" +:+ bucket_name (blob_bucket blob) +:+ "/"
       +:+ blob_name blob +:+ "?X-Goog-Method=" +:+ method +:+ "&X-Goog-Version=" +:+ version), w).

Definition platform : Platform :=
  {| world := cloud;
     File := Path;
     Info := gmap string string;
     Value := string;
     Credentials := gmap string string;
     Client := gcs_client;
     builtin_open := fun p => step (do_open p);
     json_load := fun f => step (do_json_load f);
     file_close := fun _ => step (fun w => (Ok tt, w));
     getitem := do_getitem;
     from_service_account_info := fun d => step (fun w => (Ok d, w));
     storage_Client := fun p c =>
       step (fun w => (Ok {| client_project := p; client_credentials := c |}, w));
     client_get_bucket := fun _ name => step (do_get_bucket name);
     client_create_bucket := fun _ name loc => step (do_create name loc);
     client_bucket := fun _ name w => (Ok (handle name), w);
     bucket_exists := fun b => step (do_exists b);
     bucket_create := fun b loc => step (do_create (bucket_name b) loc);
     bucket_patch := fun b => step (do_patch b);
     blob_upload_from_filename := fun blob f => step (do_upload blob f);
     blob_download_to_filename := fun blob f => step (do_download blob f);
     blob_delete := fun blob => step (do_delete blob);
     bucket_list_blobs := fun b => step (do_list_blobs b);
     blob_generate_signed_url := fun blob v d m => step (do_sign blob v d m) |}.
End Gcs.

(** ** Vocabulary of the statements *)

(** The most SDK operations one invocation of a method performs. *)
Definition max_operations (m : method) : nat :=
  match m with
  | GetBucket _ => 1
  | CreateBucket _ _ => 1
  | GetOrCreateBucket _ => 4
  | UploadFile _ _ => 5
  | DownloadFile _ _ _ => 2
  | DeleteFile _ _ => 2
  | ListFiles _ => 1
  | GetSignedUrl _ _ => 1
  end.

(** The reading of "one SDK operation per method invocation" that is most
    favourable to the program: handle construction is not counted. *)
Definition forwards_one_operation (P : Platform) (self : ServiceAccountStorage P)
    (m : method) (w : world P) : Prop :=
  length (operations (trace (invoke P self m w))) = 1%nat.

(** What a method does with an exception once it has logged it. *)
Inductive error_policy :=
| Reraise
| ReturnDefault (v : retval).

Definition on_error (m : method) : error_policy :=
  match m with
  | GetBucket _ | CreateBucket _ _ | GetOrCreateBucket _
  | DownloadFile _ _ _ | DeleteFile _ _ => Reraise
  | UploadFile _ _ => ReturnDefault RetNone
  | ListFiles _ => ReturnDefault (RetList [])
  | GetSignedUrl _ _ => ReturnDefault RetNone
  end.

(** The line a method writes at level ERROR when it catches [e]. *)
Definition error_message (m : method) (e : exn) : string :=
  match m with
  | GetBucket b => "Failed to get bucket " +:+ b +:+ ": " +:+ str e
  | CreateBucket b _ => "Failed to create bucket " +:+ b +:+ ": " +:+ str e
  | GetOrCreateBucket b => "Error with bucket " +:+ b +:+ ": " +:+ str e
  | UploadFile _ p => "Failed to upload file " +:+ p +:+ ": " +:+ str e
  | DownloadFile _ s _ => "Failed to download file " +:+ s +:+ ": " +:+ str e
  | DeleteFile _ n => "Failed to delete file " +:+ n +:+ ": " +:+ str e
  | ListFiles _ => "Failed to list files: " +:+ str e
  | GetSignedUrl _ _ => "Failed to generate signed URL: " +:+ str e
  end.

Definition is_raise {A} (r : result A) : bool :=
  match r with
  | Raise _ => true
  | Ok _ => false
  end.

(** "The error outcome is the same kind across all methods": whenever two
    invocations both meet a failing call, both raise or both return. *)
Definition same_error_outcome (P : Platform) : Prop :=
  forall (self : ServiceAccountStorage P) (m1 m2 : method) (w1 w2 : world P),
    failures (trace (invoke P self m1 w1)) <> [] ->
    failures (trace (invoke P self m2 w2)) <> [] ->
    is_raise (outcome (invoke P self m1 w1)) = is_raise (outcome (invoke P self m2 w2)).

(** The outcome the policy of [m] prescribes once [e] has been caught. *)
Definition policy_result (m : method) (e : exn) : result retval :=
  match on_error m with
  | Reraise => Raise e
  | ReturnDefault v => Ok v
  end.

(** A run that either met no failing call and logged no error, or met
    exactly one, logged [msg e] last and raised [e] again. *)
Definition reraises {A W} (msg : exn -> string) (x : result A * W * list event) : Prop :=
  match x with
  | (Ok _, _, t) => failures t = [] /\ errors_logged t = []
  | (Raise e, _, t) => failures t = [e] /\ last t = Some (Logged ERROR (msg e))
  end.

(** [n] is the age an environment gives for [key]: the integer its text
    reads as when the variable is set, [default] when it is not. *)
Definition age_setting (environ : gmap string string) (int_of_str : string -> result Z)
    (key : string) (default n : Z) : Prop :=
  match environ !! key with
  | Some s => int_of_str s = Ok n
  | None => n = default
  end.

(** A bucket created in the configured location, before any patch. *)
Definition created (cfg : Config) : Gcs.bucket_state := Gcs.fresh (cfg_location cfg).

(** The same bucket once the first patch has been applied. *)
Definition classed (cfg : Config) : Gcs.bucket_state :=
  {| Gcs.st_location := cfg_location cfg;
     Gcs.st_storage_class := cfg_default_storage_class cfg;
     Gcs.st_labels := cfg_labels cfg;
     Gcs.st_lifecycle := [];
     Gcs.st_blobs := ∅ |}.

(** The same bucket once both patches have been applied. *)
Definition configured (cfg : Config) : Gcs.bucket_state :=
  {| Gcs.st_location := cfg_location cfg;
     Gcs.st_storage_class := cfg_default_storage_class cfg;
     Gcs.st_labels := cfg_labels cfg;
     Gcs.st_lifecycle := cfg_lifecycle_rules cfg;
     Gcs.st_blobs := ∅ |}.

(** The object sent by the first patch of a new bucket [name]. *)
Definition first_patch (cfg : Config) (name : string) : Bucket :=
  set_labels (cfg_labels cfg)
    (set_storage_class (cfg_default_storage_class cfg) (Gcs.loaded name (created cfg))).

(** The object sent by the second patch. *)
Definition second_patch (cfg : Config) (name : string) : Bucket :=
  set_lifecycle_rules (cfg_lifecycle_rules cfg) (Gcs.loaded name (classed cfg)).

(** No fault is scheduled for the next [n] calls. *)
Definition quiet (n : nat) (fs : list (option exn)) : Prop :=
  Forall (fun f => f = None) (take n fs).

(** The character [c] does not occur in [s]. *)
Fixpoint free_of (c : ascii) (s : string) : bool :=
  match s with
  | EmptyString => true
  | String d s' => negb (Ascii.eqb d c) && free_of c s'
  end.

(** *** Sample inputs *)

Definition digit_value (c : ascii) : option Z :=
  let n := Z.of_nat (nat_of_ascii c) in
  if (48 <=? n)%Z && (n <=? 57)%Z then Some (n - 48)%Z else None.

Fixpoint decimal_from (acc : Z) (s : string) : option Z :=
  match s with
  | EmptyString => Some acc
  | String c s' =>
      match digit_value c with
      | Some d => decimal_from (acc * 10 + d) s'
      | None => None
      end
  end.

(** A reader of unsigned decimal numerals, on which it agrees with Python's
    [int]; used to run the configuration on examples. *)
Definition decimal (s : string) : result Z :=
  match s with
  | EmptyString => Raise (Exn "ValueError" "invalid literal for int() with base 10: ''")
  | _ =>
      match decimal_from 0 s with
      | Some z => Ok z
      | None => Raise (Exn "ValueError" "invalid literal for int() with base 10")
      end
  end.

(** The configuration when none of the [GCS_*] variables is set. *)
Definition default_config : Config :=
  {| cfg_location := "asia-south1";
     cfg_default_storage_class := "STANDARD";
     cfg_labels := <["environment" := "development"]> (<["project" := "dust-info"]> ∅);
     cfg_lifecycle_rules :=
       [ LifecycleRule (Action "SetStorageClass" (Some "NEARLINE")) (Condition 30 (Some ["STANDARD"]));
         LifecycleRule (Action "SetStorageClass" (Some "COLDLINE")) (Condition 90 (Some ["NEARLINE"]));
         LifecycleRule (Action "Delete" None) (Condition 365 None) ] |}.

Definition sample_environ : gmap string string :=
  <["GCS_NEARLINE_AGE_DAYS" := "7"]> (<["GCS_LOCATION" := "europe-west1"]> ∅).

Definition sample_root : Path := ["srv"; "app"].

Definition sample_store : Gcs.store :=
  {| Gcs.buckets := ∅;
     Gcs.files := <["/data/a/report.txt" := "first"]> (<["/data/b/report.txt" := "second"]> ∅);
     Gcs.documents :=
       <[ "/srv/app/common/dastavez-sa.json" :=
            Some (<["project_id" := "dust-info"]> (<["client_email" := "sa@dust-info"]> ∅)) ]> ∅ |}.

Definition sample_cloud : Gcs.cloud := {| Gcs.state := sample_store; Gcs.faults := [] |}.

Definition boom : exn := Exn "ServiceUnavailable" "503 backend error".

(** The same cloud with the next request made to fail. *)
Definition failing_cloud : Gcs.cloud := {| Gcs.state := sample_store; Gcs.faults := [Some boom] |}.

Definition sample_info : gmap string string :=
  <["project_id" := "dust-info"]> (<["client_email" := "sa@dust-info"]> ∅).

(** The service object the constructor builds on [sample_cloud]. *)
Definition sample_self : ServiceAccountStorage Gcs.platform :=
  {| config := default_config;
     project_id := "dust-info" : Value Gcs.platform;
     credentials := sample_info : Credentials Gcs.platform;
     client := {| Gcs.client_project := "dust-info"; Gcs.client_credentials := sample_info |}
               : Client Gcs.platform |}.

(** *** Vocabulary of the further properties *)

(** Calls that create a bucket or change its settings. *)
Definition is_bucket_write (c : call) : bool :=
  match c with
  | ClientCreateBucket _ _ | BucketCreate _ _ | BucketPatch _ => true
  | _ => false
  end.

(** The methods that are written without any create or patch call. *)
Definition leaves_buckets (m : method) : bool :=
  match m with
  | GetBucket _ | DownloadFile _ _ _ | DeleteFile _ _ | ListFiles _ | GetSignedUrl _ _ => true
  | CreateBucket _ _ | GetOrCreateBucket _ | UploadFile _ _ => false
  end.


(** The method of the class that a method calls first, if it calls one. *)
Definition inner_method (m : method) : option method :=
  match m with
  | UploadFile b _ => Some (GetOrCreateBucket b)
  | DownloadFile b _ _ | DeleteFile b _ => Some (GetBucket b)
  | _ => None
  end.

(** [key] is set to text that [int] rejects with [e]. *)
Definition age_rejected (environ : gmap string string) (int_of_str : string -> result Z)
    (key : string) (e : exn) : Prop :=
  exists s, environ !! key = Some s /\ int_of_str s = Raise e.

(** An environment whose second age is not a number. *)
Definition broken_environ : gmap string string :=
  <["GCS_COLDLINE_AGE_DAYS" := "ninety"]> (<["GCS_NEARLINE_AGE_DAYS" := "7"]> ∅).


(** A service that already holds the bucket "media" with one blob. *)
Definition stocked_store : Gcs.store :=
  {| Gcs.buckets :=
       <["media" := Gcs.with_blobs (<["report.txt" := "first"]> ∅) (configured default_config)]> ∅;
     Gcs.files := ∅;
     Gcs.documents := ∅ |}.

(** * Properties *)

(** ** Traces *)

Lemma calls_app t1 t2 : calls (t1 ++ t2) = calls t1 ++ calls t2.
Proof. unfold calls. apply omap_app. Qed.

Lemma operations_app t1 t2 : operations (t1 ++ t2) = operations t1 ++ operations t2.
Proof. unfold operations. rewrite calls_app. apply List.filter_app. Qed.

Lemma sdk_calls_app t1 t2 : sdk_calls (t1 ++ t2) = sdk_calls t1 ++ sdk_calls t2.
Proof. unfold sdk_calls. rewrite calls_app. apply List.filter_app. Qed.

Lemma opens_app t1 t2 : opens (t1 ++ t2) = opens t1 ++ opens t2.
Proof. unfold opens. rewrite calls_app. apply List.filter_app. Qed.

Lemma failures_app t1 t2 : failures (t1 ++ t2) = failures t1 ++ failures t2.
Proof. unfold failures. apply omap_app. Qed.

Lemma errors_logged_app t1 t2 : errors_logged (t1 ++ t2) = errors_logged t1 ++ errors_logged t2.
Proof. unfold errors_logged. apply omap_app. Qed.

Create Rewrite HintDb trace_app.
Hint Rewrite calls_app operations_app sdk_calls_app opens_app failures_app errors_logged_app
  @length_app @last_app : trace_app.

(** Unfold the monad, then split on the outcome of each call in turn. *)
Ltac unfold_monad :=
  unfold fmap_M, try_except, bind, extcall, local, lift, log, ret, raise, with_exit.

Ltac case_step :=
  match goal with
  | |- context [if ?b then _ else _] => destruct b
  | |- context [match ?op ?w with _ => _ end] =>
      lazymatch type of (op w) with
      | (result _ * _ * list event)%type => destruct (op w) as [[[?|?] ?] ?] eqn:?
      | (result _ * _)%type => destruct (op w) as [[?|?] ?] eqn:?
      end
  end.

Ltac run := unfold_monad; repeat (case_step; simpl).

Ltac tidy :=
  unfold trace, outcome, world_after in *; simpl in *;
  autorewrite with trace_app in *; simpl in *.

(** ** [split] *)

Lemma split_nonempty sep s : split sep s <> [].
Proof.
  destruct s as [|c s]; simpl; [discriminate|].
  destruct (Ascii.eqb c sep); [discriminate|].
  destruct (split sep s); discriminate.
Qed.

(** [l[-1]] never raises on the result of [split]. *)
Lemma getitem_last_split sep s : exists seg, getitem_last (split sep s) = Ok seg.
Proof.
  unfold getitem_last. destruct (last (split sep s)) as [seg|] eqn:E; [eauto|].
  apply last_None in E. destruct (split_nonempty _ _ E).
Qed.

Lemma split_free sep s : free_of sep s = true -> split sep s = [s].
Proof.
  induction s as [|d s IH]; simpl; [done|].
  intros H. apply andb_true_iff in H as [Hd Hs].
  apply negb_true_iff in Hd. by rewrite Hd, (IH Hs).
Qed.

Lemma split_single sep s seg : split sep s = [seg] -> seg = s /\ free_of sep s = true.
Proof.
  revert seg. induction s as [|d s IH]; intros seg E; simpl in E.
  - by injection E as <-.
  - destruct (Ascii.eqb d sep) eqn:Hd.
    + injection E as _ E. destruct (split_nonempty _ _ E).
    + destruct (split sep s) as [|q qs] eqn:E'; [destruct (split_nonempty _ _ E')|].
      injection E as <- ->. destruct (IH q eq_refl) as [-> Hfree].
      simpl. by rewrite Hd, Hfree.
Qed.

(** The last piece is the text after the last separator. *)
Lemma split_last sep s :
  exists prefix seg,
    last (split sep s) = Some seg /\
    s = prefix +:+ seg /\
    free_of sep seg = true /\
    (prefix = "" \/ exists p, prefix = p +:+ String sep "").
Proof.
  induction s as [|c s IH].
  - exists "", "". split_and!; [done|done|done|by left].
  - destruct IH as (prefix & seg & Hlast & Hs & Hfree & Hprefix). simpl.
    destruct (Ascii.eqb c sep) eqn:Hc.
    + apply Ascii.eqb_eq in Hc. subst c.
      exists (String sep prefix), seg. split_and!.
      * destruct (split sep s) eqn:E; [destruct (split_nonempty _ _ E)|]. exact Hlast.
      * by subst s.
      * exact Hfree.
      * right. destruct Hprefix as [->|[p ->]]; [by exists ""|by exists (String sep p)].
    + destruct (split sep s) as [|piece pieces] eqn:E; [destruct (split_nonempty _ _ E)|].
      destruct pieces as [|piece' pieces'].
      * destruct (split_single _ _ _ E) as [-> Hs'].
        exists "", (String c s). split_and!; [done|done| |by left].
        simpl. by rewrite Hc, Hs'.
      * exists (String c prefix), seg. split_and!; [exact Hlast|by subst s|exact Hfree|].
        right. destruct Hprefix as [->|[p ->]]; [|by exists (String c p)].
        exfalso. change (s = seg) in Hs. subst s.
        rewrite (split_free _ _ Hfree) in E. discriminate.
Qed.

(** ** Every method: what it calls, and what it does with an exception *)

Lemma get_bucket_reraises P self b w :
  reraises (error_message (GetBucket b)) (get_bucket P self b w).
Proof. unfold get_bucket. run; done. Qed.

Lemma get_or_create_bucket_reraises P self b w :
  reraises (error_message (GetOrCreateBucket b)) (get_or_create_bucket P self b w).
Proof. unfold get_or_create_bucket. run; done. Qed.

Lemma get_bucket_calls P self b w :
  calls (trace (get_bucket P self b w)) = [ClientGetBucket b].
Proof. unfold get_bucket. run; reflexivity. Qed.

Lemma get_or_create_bucket_operations P self b w :
  length (operations (trace (get_or_create_bucket P self b w))) <= 4.
Proof. unfold get_or_create_bucket. run; cbn; lia. Qed.

Lemma get_or_create_bucket_sdk_only P self b w :
  Forall (fun c => is_sdk_call c = true) (calls (trace (get_or_create_bucket P self b w))).
Proof. unfold get_or_create_bucket. run; cbn; repeat constructor. Qed.

Ltac use_reraises :=
  match goal with
  | H : reraises _ _ |- _ => simpl in H; destruct H as [? ?]
  end.

Ltac use_inner :=
  repeat match goal with
    | H : context [trace (_, _, _)] |- _ => unfold trace in H; simpl in H
    | H : calls ?l = _ |- context [calls ?l] => rewrite H
    | H : calls ?l = _ |- context [operations ?l] => unfold operations; rewrite H
    | H : calls ?l = _ |- context [sdk_calls ?l] => unfold sdk_calls; rewrite H
    | H : calls ?l = _ |- context [opens ?l] => unfold opens; rewrite H
    end.

(** Either nothing failed, nothing was logged at ERROR and the method
    returned; or exactly one call failed, the method's error line is the
    last thing it wrote, and the outcome is what its policy prescribes. *)
Lemma invoke_summary P self m w :
  let r := invoke P self m w in
  (failures (trace r) = [] /\ errors_logged (trace r) = [] /\ exists v, outcome r = Ok v) \/
  (exists e, failures (trace r) = [e] /\
             last (trace r) = Some (Logged ERROR (error_message m e)) /\
             outcome r = policy_result m e).
Proof.
  destruct m as [b|b l|b|b p|b s d|b n|b|b n]; simpl.
  - pose proof (get_bucket_reraises P self b w) as H. unfold fmap_M.
    destruct (get_bucket P self b w) as [[[?|?] ?] ?]; destruct H; tidy; eauto 10.
  - unfold create_bucket. run; tidy; eauto 10.
  - pose proof (get_or_create_bucket_reraises P self b w) as H. unfold fmap_M.
    destruct (get_or_create_bucket P self b w) as [[[?|?] ?] ?];
      destruct H; tidy; eauto 10.
  - pose proof (get_or_create_bucket_reraises P self b w) as H.
    unfold upload_file. unfold_monad.
    destruct (getitem_last_split "/" p) as [seg ->].
    run; use_reraises; tidy; rewrite ?H, ?H0; simpl; eauto 10.
  - pose proof (get_bucket_reraises P self b w) as H.
    unfold download_file. run; use_reraises; tidy; rewrite ?H, ?H0; simpl; eauto 10.
  - pose proof (get_bucket_reraises P self b w) as H.
    unfold delete_file. run; use_reraises; tidy; rewrite ?H, ?H0; simpl; eauto 10.
  - unfold list_files. run; tidy; eauto 10.
  - unfold get_signed_url. run; tidy; eauto 10.
Qed.

Lemma operations_bound P self m w :
  length (operations (trace (invoke P self m w))) <= max_operations m.
Proof.
  destruct m as [b|b l|b|b p|b s d|b n|b|b n]; simpl;
    [ pose proof (get_bucket_calls P self b w)
    | | pose proof (get_or_create_bucket_operations P self b w)
    | pose proof (get_or_create_bucket_operations P self b w)
    | pose proof (get_bucket_calls P self b w)
    | pose proof (get_bucket_calls P self b w)
    | | ];
    unfold create_bucket, upload_file, download_file, delete_file, list_files, get_signed_url;
    unfold_monad; try (destruct (getitem_last_split "/" p) as [seg ->]);
    run; tidy; use_inner; simpl; lia.
Qed.

Lemma only_sdk_calls P self m w :
  Forall (fun c => is_sdk_call c = true) (calls (trace (invoke P self m w))).
Proof.
  destruct m as [b|b l|b|b p|b s d|b n|b|b n]; simpl;
    [ pose proof (get_bucket_calls P self b w)
    | | pose proof (get_or_create_bucket_sdk_only P self b w)
    | pose proof (get_or_create_bucket_sdk_only P self b w)
    | pose proof (get_bucket_calls P self b w)
    | pose proof (get_bucket_calls P self b w)
    | | ];
    unfold create_bucket, upload_file, download_file, delete_file, list_files, get_signed_url;
    unfold_monad; try (destruct (getitem_last_split "/" p) as [seg ->]);
    run; tidy; use_inner; rewrite ?Forall_app; repeat split; try assumption;
    repeat constructor.
Qed.

Lemma create_bucket_calls P self b l w :
  calls (trace (create_bucket P self b l w)) = [ClientCreateBucket b (default "US" l)].
Proof. unfold create_bucket. run; reflexivity. Qed.

(** C1, as amended.  [get_bucket] and [create_bucket] forward exactly one
    SDK call.  The other methods compose several: besides building local
    handles, an invocation performs at most [max_operations] SDK operations
    (one for [list_files] and [get_signed_url], two for [download_file] and
    [delete_file], four for [get_or_create_bucket], five for [upload_file]).
    No method calls anything but the SDK, and all else it does is logging
    and exception handling. *)
Theorem methods_compose_sdk_operations (P : Platform) (self : ServiceAccountStorage P)
    (m : method) (w : world P) :
  let t := trace (invoke P self m w) in
  length (operations t) <= max_operations m /\
  Forall (fun c => is_sdk_call c = true) (calls t) /\
  match m with
  | GetBucket b => sdk_calls t = [ClientGetBucket b]
  | CreateBucket b l => sdk_calls t = [ClientCreateBucket b (default "US" l)]
  | _ => True
  end.
Proof.
  split_and!.
  - apply operations_bound.
  - apply only_sdk_calls.
  - destruct m as [b|b l| | | | | | ]; try exact I; simpl.
    + pose proof (get_bucket_calls P self b w) as H. unfold fmap_M.
      destruct (get_bucket P self b w) as [[[?|?] ?] ?]; tidy; unfold sdk_calls; by rewrite H.
    + pose proof (create_bucket_calls P self b l w) as H. unfold fmap_M.
      destruct (create_bucket P self b l w) as [[[?|?] ?] ?]; tidy; unfold sdk_calls; by rewrite H.
Qed.

(** C1 as stated fails: creating a bucket that does not exist takes four SDK
    operations (exists, create, patch, patch) and six SDK calls in all. *)
Lemma get_or_create_bucket_four_operations :
  length (operations (trace (invoke Gcs.platform sample_self (GetOrCreateBucket "media")
                               sample_cloud))) = 4%nat /\
  length (sdk_calls (trace (invoke Gcs.platform sample_self (GetOrCreateBucket "media")
                              sample_cloud))) = 6%nat /\
  ~ forwards_one_operation Gcs.platform sample_self (GetOrCreateBucket "media") sample_cloud.
Proof.
  split_and!; [by vm_compute|by vm_compute|].
  unfold forwards_one_operation. vm_compute. discriminate.
Qed.

(** The bounds of [max_operations] are reached: an upload into a bucket that
    does not exist yet performs five operations. *)
Example upload_file_five_operations :
  length (operations (trace (invoke Gcs.platform sample_self
                               (UploadFile "media" "/data/a/report.txt") sample_cloud)))
  = max_operations (UploadFile "media" "/data/a/report.txt").
Proof. by vm_compute. Qed.

(** C2, as amended.  When a call made by a method raises [e], the method
    writes its error line for [e] (the last thing it logs) and then follows
    its own policy: [get_bucket], [create_bucket], [get_or_create_bucket],
    [download_file] and [delete_file] raise [e] again; [upload_file] and
    [get_signed_url] return [None]; [list_files] returns the empty list. *)
Theorem errors_logged_then_policy (P : Platform) (self : ServiceAccountStorage P)
    (m : method) (w : world P) (e : exn) :
  e ∈ failures (trace (invoke P self m w)) ->
  last (trace (invoke P self m w)) = Some (Logged ERROR (error_message m e)) /\
  outcome (invoke P self m w) = policy_result m e.
Proof.
  intros He. destruct (invoke_summary P self m w) as [(Hnone & _)|(e' & Hone & Hlast & Hout)].
  - rewrite Hnone in He. by apply elem_of_nil in He.
  - rewrite Hone in He. apply list_elem_of_singleton in He. by subst e'.
Qed.

Lemma errors_logged_then_policy_witness :
  Gcs.NotFound "media"
    ∈ failures (trace (invoke Gcs.platform sample_self (ListFiles "media") sample_cloud)) /\
  last (trace (invoke Gcs.platform sample_self (ListFiles "media") sample_cloud))
    = Some (Logged ERROR "Failed to list files: 404 media not found") /\
  outcome (invoke Gcs.platform sample_self (ListFiles "media") sample_cloud) = Ok (RetList []).
Proof.
  assert (H : Gcs.NotFound "media"
                ∈ failures (trace (invoke Gcs.platform sample_self (ListFiles "media")
                                     sample_cloud))).
  { vm_compute. left. }
  split; [exact H|].
  exact (errors_logged_then_policy Gcs.platform sample_self (ListFiles "media") sample_cloud
           (Gcs.NotFound "media") H).
Defined.

(** Without a failing call a method logs no error and returns. *)
Lemma no_failure_no_error P self m w :
  failures (trace (invoke P self m w)) = [] ->
  errors_logged (trace (invoke P self m w)) = [] /\ exists v, outcome (invoke P self m w) = Ok v.
Proof.
  intros Hf. destruct (invoke_summary P self m w) as [(_ & ? & ?)|(e' & Hone & _)]; [done|].
  rewrite Hone in Hf. discriminate.
Qed.

(** C2 as stated fails: asked for a bucket that does not exist, [get_bucket]
    raises the SDK's exception and [list_files] returns the empty list, so
    the outcome is not of one kind across methods. *)
Lemma error_outcome_not_uniform :
  failures (trace (invoke Gcs.platform sample_self (GetBucket "media") sample_cloud))
    = [Gcs.NotFound "media"] /\
  outcome (invoke Gcs.platform sample_self (GetBucket "media") sample_cloud)
    = Raise (Gcs.NotFound "media") /\
  failures (trace (invoke Gcs.platform sample_self (ListFiles "media") sample_cloud))
    = [Gcs.NotFound "media"] /\
  outcome (invoke Gcs.platform sample_self (ListFiles "media") sample_cloud) = Ok (RetList []) /\
  ~ same_error_outcome Gcs.platform.
Proof.
  split_and!; [by vm_compute|by vm_compute|by vm_compute|by vm_compute|].
  intros H.
  specialize (H sample_self (GetBucket "media") (ListFiles "media") sample_cloud sample_cloud).
  vm_compute in H. specialize (H ltac:(discriminate) ltac:(discriminate)). discriminate H.
Qed.

(** ** The configuration *)

Lemma int_getenv_or_int environ int_of_str key default n :
  int int_of_str (getenv_or_int environ key default) = Ok n <->
  age_setting environ int_of_str key default n.
Proof.
  unfold getenv_or_int, age_setting. destruct (environ !! key); simpl; [done|].
  split; [by intros [= ->]|by intros ->].
Qed.

(** C5.  Whenever the configuration module loads, its lifecycle rules are
    exactly three, in this order: STANDARD objects move to NEARLINE at the
    age given by GCS_NEARLINE_AGE_DAYS (30 when unset), NEARLINE objects
    move to COLDLINE at the age given by GCS_COLDLINE_AGE_DAYS (90 when
    unset), and objects are deleted at the age given by GCS_DELETE_AGE_DAYS
    (365 when unset). *)
Theorem lifecycle_rules_three_transitions (environ : gmap string string)
    (int_of_str : string -> result Z) (cfg : Config) :
  STORAGE_CONFIG environ int_of_str = Ok cfg ->
  exists nearline coldline delete : Z,
    age_setting environ int_of_str "GCS_NEARLINE_AGE_DAYS" 30 nearline /\
    age_setting environ int_of_str "GCS_COLDLINE_AGE_DAYS" 90 coldline /\
    age_setting environ int_of_str "GCS_DELETE_AGE_DAYS" 365 delete /\
    cfg_lifecycle_rules cfg =
      [ {| rule_action := {| action_type := "SetStorageClass"; storageClass := Some "NEARLINE" |};
           rule_condition := {| age := nearline; matchesStorageClass := Some ["STANDARD"] |} |};
        {| rule_action := {| action_type := "SetStorageClass"; storageClass := Some "COLDLINE" |};
           rule_condition := {| age := coldline; matchesStorageClass := Some ["NEARLINE"] |} |};
        {| rule_action := {| action_type := "Delete"; storageClass := None |};
           rule_condition := {| age := delete; matchesStorageClass := None |} |} ].
Proof.
  unfold STORAGE_CONFIG, result_bind. intros H.
  destruct (int int_of_str (getenv_or_int environ "GCS_NEARLINE_AGE_DAYS" 30)) as [n|] eqn:Hn;
    [|discriminate].
  destruct (int int_of_str (getenv_or_int environ "GCS_COLDLINE_AGE_DAYS" 90)) as [c|] eqn:Hc;
    [|discriminate].
  destruct (int int_of_str (getenv_or_int environ "GCS_DELETE_AGE_DAYS" 365)) as [d|] eqn:Hd;
    [|discriminate].
  injection H as <-. exists n, c, d.
  apply int_getenv_or_int in Hn, Hc, Hd. by split_and!.
Qed.

Lemma lifecycle_rules_three_transitions_witness :
  exists cfg, STORAGE_CONFIG sample_environ decimal = Ok cfg /\
    map (fun r => age (rule_condition r)) (cfg_lifecycle_rules cfg) = [7; 90; 365]%Z.
Proof.
  destruct (STORAGE_CONFIG sample_environ decimal) as [cfg|e] eqn:E; [|by vm_compute in E].
  exists cfg. split; [done|].
  destruct (lifecycle_rules_three_transitions sample_environ decimal cfg E)
    as (n & c & d & Hn & Hc & Hd & ->).
  vm_compute in Hn, Hc, Hd. injection Hn as <-. by subst c d.
Defined.

(** With none of the variables set the module loads with the defaults. *)
Lemma STORAGE_CONFIG_default int_of_str : STORAGE_CONFIG ∅ int_of_str = Ok default_config.
Proof. reflexivity. Qed.

(** The module loads exactly when the three ages can be read. *)
Lemma STORAGE_CONFIG_loads environ int_of_str :
  (exists cfg, STORAGE_CONFIG environ int_of_str = Ok cfg) <->
  (exists n c d, age_setting environ int_of_str "GCS_NEARLINE_AGE_DAYS" 30 n /\
                 age_setting environ int_of_str "GCS_COLDLINE_AGE_DAYS" 90 c /\
                 age_setting environ int_of_str "GCS_DELETE_AGE_DAYS" 365 d).
Proof.
  split.
  - intros [cfg H]. unfold STORAGE_CONFIG, result_bind in H.
    destruct (int int_of_str (getenv_or_int environ "GCS_NEARLINE_AGE_DAYS" 30)) as [n|] eqn:Hn;
      [|discriminate].
    destruct (int int_of_str (getenv_or_int environ "GCS_COLDLINE_AGE_DAYS" 90)) as [c|] eqn:Hc;
      [|discriminate].
    destruct (int int_of_str (getenv_or_int environ "GCS_DELETE_AGE_DAYS" 365)) as [d|] eqn:Hd;
      [|discriminate].
    apply int_getenv_or_int in Hn, Hc, Hd. eauto 6.
  - intros (n & c & d & Hn & Hc & Hd). apply int_getenv_or_int in Hn, Hc, Hd.
    unfold STORAGE_CONFIG, result_bind. rewrite Hn, Hc, Hd. eauto.
Qed.

(** ** The constructor *)

Lemma no_open_among_sdk_calls (l : list call) :
  Forall (fun c => is_sdk_call c = true) l -> List.filter is_open l = [].
Proof.
  induction 1 as [|c l Hc _ IH]; [done|].
  simpl. rewrite IH. by destruct c.
Qed.

Lemma methods_open_nothing P self m w : opens (trace (invoke P self m w)) = [].
Proof. apply no_open_among_sdk_calls, only_sdk_calls. Qed.

Lemma init_opens P cfg root w :
  opens (trace (init P cfg root w)) = [Open (root ++ ["common"; "dastavez-sa.json"])].
Proof. unfold init. run; reflexivity. Qed.

Lemma init_success P cfg root w self :
  outcome (init P cfg root w) = Ok self ->
  let sa_path := root ++ ["common"; "dastavez-sa.json"] in
  calls (trace (init P cfg root w)) =
    [Open sa_path; JsonLoad; Close; GetItem "project_id"; FromServiceAccountInfo; NewClient] /\
  failures (trace (init P cfg root w)) = [] /\
  config P self = cfg /\
  exists f info w1 w2 w3 w4 w5,
    builtin_open P sa_path w = (Ok f, w1) /\
    json_load P f w1 = (Ok info, w2) /\
    file_close P f w2 = (Ok tt, w3) /\
    getitem P info "project_id" w3 = (Ok (project_id P self), w4) /\
    from_service_account_info P info w4 = (Ok (credentials P self), w5) /\
    storage_Client P (project_id P self) (credentials P self) w5
      = (Ok (client P self), world_after (init P cfg root w)).
Proof.
  unfold init. run; unfold outcome; simpl; intros [= <-].
  split_and!; try reflexivity.
  match goal with u : unit |- _ => destruct u end.
  simpl. do 7 eexists. split_and!; try eassumption; reflexivity.
Qed.

Lemma init_failure P cfg root w :
  failures (trace (init P cfg root w)) <> [] ->
  exists e, last (failures (trace (init P cfg root w))) = Some e /\
            outcome (init P cfg root w) = Raise e /\
            last (trace (init P cfg root w))
              = Some (Logged ERROR ("Failed to initialize storage service: " +:+ str e)).
Proof. unfold init. run; intros H; try (by destruct H); eauto. Qed.

(** C4.  The constructor opens the service-account file exactly once,
    whatever happens next.  When it returns, it has read the file, parsed
    it, taken the project id from it and built the credentials and the
    client from what it read; when any of these steps raises, it logs the
    error and raises.  No method of the class opens a file. *)
Theorem credentials_loaded_once (P : Platform) (cfg : Config) (root : Path) (w : world P) :
  let sa_path := root ++ ["common"; "dastavez-sa.json"] in
  let r := init P cfg root w in
  opens (trace r) = [Open sa_path] /\
  (forall self, outcome r = Ok self ->
     calls (trace r) =
       [Open sa_path; JsonLoad; Close; GetItem "project_id"; FromServiceAccountInfo; NewClient] /\
     failures (trace r) = [] /\
     config P self = cfg /\
     exists f info w1 w2 w3 w4 w5,
       builtin_open P sa_path w = (Ok f, w1) /\
       json_load P f w1 = (Ok info, w2) /\
       file_close P f w2 = (Ok tt, w3) /\
       getitem P info "project_id" w3 = (Ok (project_id P self), w4) /\
       from_service_account_info P info w4 = (Ok (credentials P self), w5) /\
       storage_Client P (project_id P self) (credentials P self) w5
         = (Ok (client P self), world_after r)) /\
  (failures (trace r) <> [] ->
     exists e, last (failures (trace r)) = Some e /\
               outcome r = Raise e /\
               last (trace r)
                 = Some (Logged ERROR ("Failed to initialize storage service: " +:+ str e))) /\
  (forall (self : ServiceAccountStorage P) (m : method) (w' : world P),
     opens (trace (invoke P self m w')) = []).
Proof.
  split_and!.
  - apply init_opens.
  - intros self. apply init_success.
  - apply init_failure.
  - apply methods_open_nothing.
Qed.

Lemma credentials_loaded_once_witness :
  outcome (init Gcs.platform default_config sample_root sample_cloud) = Ok sample_self /\
  opens (trace (init Gcs.platform default_config sample_root sample_cloud))
    = [Open (sample_root ++ ["common"; "dastavez-sa.json"])] /\
  failures (trace (init Gcs.platform default_config sample_root sample_cloud)) = [].
Proof.
  assert (H : outcome (init Gcs.platform default_config sample_root sample_cloud) = Ok sample_self).
  { reflexivity. }
  destruct (credentials_loaded_once Gcs.platform default_config sample_root sample_cloud)
    as (Hopen & Hok & _ & _).
  destruct (Hok sample_self H) as (_ & Hfail & _).
  split_and!; [exact H|exact Hopen|exact Hfail].
Defined.

(** ** Signed URLs *)

Lemma get_signed_url_returns P self b n w :
  exists v, outcome (get_signed_url P self b n w) = Ok v.
Proof. unfold get_signed_url. run; eauto. Qed.

Lemma get_signed_url_operations P self b n w c :
  c ∈ operations (trace (get_signed_url P self b n w)) ->
  exists bucket w1,
    client_bucket P (client P self) b w = (Ok bucket, w1) /\
    c = BlobGenerateSignedUrl (bucket_blob bucket n) "v4" (timedelta_minutes 15) "GET".
Proof.
  unfold get_signed_url. run; unfold trace, operations; simpl; intros Hc;
    try (by apply elem_of_nil in Hc); apply list_elem_of_singleton in Hc; eauto.
Qed.

Lemma get_signed_url_success P self b n w url :
  outcome (get_signed_url P self b n w) = Ok (Some url) <->
  exists bucket w1 w2,
    client_bucket P (client P self) b w = (Ok bucket, w1) /\
    blob_generate_signed_url P (bucket_blob bucket n) "v4" (timedelta_minutes 15) "GET" w1
      = (Ok url, w2).
Proof.
  unfold get_signed_url. run; unfold outcome; simpl; split;
    try (intros [= <-]; eauto); try discriminate;
    intros (bucket & wa & wb & [= <- <-] & H2); congruence.
Qed.

Lemma get_signed_url_failure P self b n w :
  failures (trace (get_signed_url P self b n w)) <> [] ->
  outcome (get_signed_url P self b n w) = Ok None /\
  exists e, last (trace (get_signed_url P self b n w))
            = Some (Logged ERROR ("Failed to generate signed URL: " +:+ str e)).
Proof. unfold get_signed_url. run; intros H; try (by destruct H); eauto. Qed.

(** C6.  [get_signed_url] asks the SDK for one thing only: a signed URL of
    the named blob with version "v4", method "GET" and an expiration of 15
    minutes (900 seconds).  It returns the URL the SDK produced, and it
    never raises: when a call fails it logs the error and returns [None]. *)
Theorem get_signed_url_v4_get_15_minutes (P : Platform) (self : ServiceAccountStorage P)
    (bucket_name blob_name : string) (w : world P) :
  let r := get_signed_url P self bucket_name blob_name w in
  total_seconds (timedelta_minutes 15) = (15 * 60)%Z /\
  (forall c, c ∈ operations (trace r) ->
     exists bucket w1,
       client_bucket P (client P self) bucket_name w = (Ok bucket, w1) /\
       c = BlobGenerateSignedUrl (bucket_blob bucket blob_name) "v4" (timedelta_minutes 15) "GET") /\
  (forall url, outcome r = Ok (Some url) <->
     exists bucket w1 w2,
       client_bucket P (client P self) bucket_name w = (Ok bucket, w1) /\
       blob_generate_signed_url P (bucket_blob bucket blob_name) "v4" (timedelta_minutes 15) "GET" w1
         = (Ok url, w2)) /\
  (exists v, outcome r = Ok v) /\
  (failures (trace r) <> [] ->
     outcome r = Ok None /\
     exists e, last (trace r) = Some (Logged ERROR ("Failed to generate signed URL: " +:+ str e))).
Proof.
  split_and!.
  - reflexivity.
  - apply get_signed_url_operations.
  - apply get_signed_url_success.
  - apply get_signed_url_returns.
  - apply get_signed_url_failure.
Qed.

Example get_signed_url_sample :
  outcome (get_signed_url Gcs.platform sample_self "media" "report.txt" sample_cloud)
    = Ok (Some "https://storage.googleapis.com/media/report.txt?X-Goog-Method=GET&X-Goog-Version=v4") /\
  outcome (get_signed_url Gcs.platform sample_self "media" "report.txt" failing_cloud) = Ok None.
Proof. split; by vm_compute. Qed.

(** ** Uploads *)

Lemma upload_file_returns_last P self b p w name :
  outcome (upload_file P self b p w) = Ok (Some name) ->
  last (split "/" p) = Some name /\
  exists bucket, BlobUploadFromFilename (bucket_blob bucket name) p ∈ calls (trace (upload_file P self b p w)).
Proof.
  unfold upload_file. unfold_monad.
  destruct (getitem_last_split "/" p) as [seg Hseg]. rewrite Hseg.
  unfold getitem_last in Hseg. destruct (last (split "/" p)) as [x|]; [|discriminate].
  injection Hseg as ->.
  run; unfold outcome; simpl; intros [= <-]. split; [done|].
  eexists. tidy. rewrite !elem_of_app. right. right. left.
Qed.

(** C8.  A successful [upload_file] returns the last piece of
    [file_path.split('/')], which is the text after the last '/', and that
    is the name of the blob it uploaded.  So uploads of two paths with the
    same last piece return, and write, the same blob name. *)
Theorem upload_file_names_blob_by_last_segment (P : Platform) (self : ServiceAccountStorage P)
    (bucket_name file_path : string) (w : world P) (name : string) :
  outcome (upload_file P self bucket_name file_path w) = Ok (Some name) ->
  last (split "/" file_path) = Some name /\
  (exists prefix, file_path = prefix +:+ name /\ free_of "/" name = true /\
                  (prefix = "" \/ exists p, prefix = p +:+ "/")) /\
  (exists bucket, BlobUploadFromFilename (bucket_blob bucket name) file_path
                    ∈ calls (trace (upload_file P self bucket_name file_path w))) /\
  (forall (bucket_name' file_path' : string) (w' : world P) (name' : string),
     outcome (upload_file P self bucket_name' file_path' w') = Ok (Some name') ->
     last (split "/" file_path') = last (split "/" file_path) ->
     name' = name).
Proof.
  intros H. destruct (upload_file_returns_last _ _ _ _ _ _ H) as [Hlast Hcall].
  split_and!; [exact Hlast| |exact Hcall|].
  - destruct (split_last "/" file_path) as (prefix & seg & Hseg & Hp & Hfree & Hpre).
    rewrite Hlast in Hseg. injection Hseg as <-. eauto.
  - intros b' p' w' name' H' Heq.
    destruct (upload_file_returns_last _ _ _ _ _ _ H') as [Hlast' _]. congruence.
Qed.

Lemma upload_file_names_blob_by_last_segment_witness :
  outcome (upload_file Gcs.platform sample_self "media" "/data/a/report.txt" sample_cloud)
    = Ok (Some "report.txt") /\
  last (split "/" "/data/a/report.txt") = Some "report.txt" /\
  outcome (upload_file Gcs.platform sample_self "media" "/data/b/report.txt" sample_cloud)
    = Ok (Some "report.txt").
Proof.
  assert (H : outcome (upload_file Gcs.platform sample_self "media" "/data/a/report.txt"
                         sample_cloud) = Ok (Some "report.txt")) by (by vm_compute).
  split_and!; [exact H| |by vm_compute].
  exact (proj1 (upload_file_names_blob_by_last_segment Gcs.platform sample_self "media"
                  "/data/a/report.txt" sample_cloud "report.txt" H)).
Defined.

(** On the concrete service: two files with the same last piece, uploaded
    one after the other, leave one blob, holding the second file. *)
Example same_segment_uploads_collide :
  let after_first :=
    world_after (upload_file Gcs.platform sample_self "media" "/data/a/report.txt" sample_cloud) in
  let after_second :=
    world_after (upload_file Gcs.platform sample_self "media" "/data/b/report.txt" after_first) in
  (Gcs.st_blobs <$> Gcs.buckets (Gcs.state after_first) !! "media")
    = Some (<["report.txt" := "first"]> ∅) /\
  (Gcs.st_blobs <$> Gcs.buckets (Gcs.state after_second) !! "media")
    = Some (<["report.txt" := "second"]> ∅).
Proof. split; by vm_compute. Qed.

(** ** On the concrete service: creating and finding buckets *)

Lemma quiet_nil n : quiet n [].
Proof. unfold quiet. rewrite take_nil. constructor. Qed.

Lemma quiet_cases n fs :
  quiet (S n) fs -> fs = [] \/ exists rest, fs = None :: rest /\ quiet n rest.
Proof.
  destruct fs as [|f rest]; [by left|]. unfold quiet. simpl. intros H.
  apply Forall_cons in H as [-> H]. right. eauto.
Qed.

(** Split a quiet schedule into the shapes it can have. *)
Ltac split_faults H :=
  repeat match type of H with
    | quiet (S _) ?fs =>
        let rest := fresh "rest" in
        apply quiet_cases in H as [->|(rest & -> & H)]
    end.

(** Split an arbitrary schedule, entry by entry, [n] calls deep; [tac] runs
    where the schedule ends or forces a failure, and after [n] entries. *)
Ltac each_fault fs n tac :=
  lazymatch n with
  | O => tac
  | S ?k => destruct fs as [|[?|] fs]; [tac | tac | each_fault fs k tac]
  end.

Lemma fresh_created cfg : Gcs.fresh (cfg_location cfg) = created cfg.
Proof. reflexivity. Qed.

(** The first patch writes the storage class and the labels, nothing else. *)
Lemma patched_first cfg name :
  Gcs.patched
    (set_labels (cfg_labels cfg)
       (set_storage_class (cfg_default_storage_class cfg) (Gcs.loaded name (created cfg))))
    (created cfg) = classed cfg.
Proof.
  unfold Gcs.patched, classed, created. simpl.
  rewrite !decide_True by (set_unfold; intuition congruence).
  rewrite decide_False by (set_unfold; intuition congruence). done.
Qed.

(** The second patch writes the lifecycle rules, nothing else. *)
Lemma patched_second cfg name :
  Gcs.patched (set_lifecycle_rules (cfg_lifecycle_rules cfg) (Gcs.loaded name (classed cfg)))
    (classed cfg) = configured cfg.
Proof.
  unfold Gcs.patched, classed, configured. simpl.
  rewrite !decide_False by (set_unfold; intuition congruence).
  rewrite decide_True by (set_unfold; intuition congruence). done.
Qed.

#[local] Arguments Gcs.patched : simpl never.
#[local] Arguments Gcs.loaded : simpl never.
#[local] Arguments Gcs.fresh : simpl never.
#[local] Arguments set_labels : simpl never.
#[local] Arguments set_storage_class : simpl never.
#[local] Arguments set_lifecycle_rules : simpl never.

(** Run a method on the concrete service, call by call. *)
Ltac gcs_eval :=
  unfold get_or_create_bucket, create_bucket, get_bucket; unfold_monad;
  repeat (simpl;
          unfold Gcs.step, Gcs.do_create, Gcs.do_patch, Gcs.do_exists, Gcs.do_get_bucket;
          simpl;
          repeat match goal with
            | H : _ !! _ = _ |- _ => rewrite H
            end;
          rewrite ?lookup_insert_eq, ?fresh_created, ?patched_first, ?patched_second;
          simpl).

Ltac finish_eval :=
  unfold Gcs.with_buckets, first_patch, second_patch, outcome, world_after, trace; simpl;
  rewrite ?insert_insert_eq, ?lookup_insert_eq.

Lemma get_or_create_bucket_creates self name s fs :
  Gcs.buckets s !! name = None -> quiet 4 fs ->
  let cfg := config Gcs.platform self in
  let r := get_or_create_bucket Gcs.platform self name {| Gcs.state := s; Gcs.faults := fs |} in
  outcome r = Ok (Gcs.loaded name (configured cfg)) /\
  Gcs.buckets (Gcs.state (world_after r)) = <[name := configured cfg]> (Gcs.buckets s) /\
  operations (trace r) =
    [ BucketExists (Gcs.handle name); BucketCreate (Gcs.handle name) (cfg_location cfg);
      BucketPatch (first_patch cfg name); BucketPatch (second_patch cfg name) ].
Proof.
  intros Hb Hq cfg r. subst r cfg.
  split_faults Hq; gcs_eval; finish_eval; split_and!; reflexivity.
Qed.

Lemma get_or_create_bucket_existing self name s fs st :
  Gcs.buckets s !! name = Some st -> quiet 1 fs ->
  let r := get_or_create_bucket Gcs.platform self name {| Gcs.state := s; Gcs.faults := fs |} in
  outcome r = Ok (Gcs.handle name) /\
  Gcs.state (world_after r) = s /\
  sdk_calls (trace r) = [ClientBucket name; BucketExists (Gcs.handle name)].
Proof.
  intros Hb Hq r. subst r. split_faults Hq; gcs_eval; finish_eval; split_and!; reflexivity.
Qed.

(** Whatever the schedule, a call that returns leaves the bucket in place. *)
Lemma get_or_create_bucket_ok_exists self name c b :
  outcome (get_or_create_bucket Gcs.platform self name c) = Ok b ->
  is_Some (Gcs.buckets (Gcs.state (world_after (get_or_create_bucket Gcs.platform self name c)))
             !! name).
Proof.
  destruct c as [s fs]. destruct (Gcs.buckets s !! name) as [st|] eqn:Hb.
  - each_fault fs 1%nat ltac:(gcs_eval; finish_eval; intros; try discriminate; eauto).
  - each_fault fs 4%nat ltac:(gcs_eval; finish_eval; intros; try discriminate; eauto).
Qed.

Lemma get_or_create_bucket_first_patch_fails self name s e rest :
  Gcs.buckets s !! name = None ->
  let cfg := config Gcs.platform self in
  let r := get_or_create_bucket Gcs.platform self name
             {| Gcs.state := s; Gcs.faults := [None; None; Some e] ++ rest |} in
  outcome r = Raise e /\
  Gcs.buckets (Gcs.state (world_after r)) = <[name := created cfg]> (Gcs.buckets s) /\
  operations (trace r) =
    [ BucketExists (Gcs.handle name); BucketCreate (Gcs.handle name) (cfg_location cfg);
      BucketPatch (first_patch cfg name) ] /\
  last (trace r) = Some (Logged ERROR (error_message (GetOrCreateBucket name) e)).
Proof. intros Hb cfg r. subst r cfg. gcs_eval; finish_eval. split_and!; reflexivity. Qed.

Lemma get_or_create_bucket_second_patch_fails self name s e rest :
  Gcs.buckets s !! name = None ->
  let cfg := config Gcs.platform self in
  let r := get_or_create_bucket Gcs.platform self name
             {| Gcs.state := s; Gcs.faults := [None; None; None; Some e] ++ rest |} in
  outcome r = Raise e /\
  Gcs.buckets (Gcs.state (world_after r)) = <[name := classed cfg]> (Gcs.buckets s) /\
  operations (trace r) =
    [ BucketExists (Gcs.handle name); BucketCreate (Gcs.handle name) (cfg_location cfg);
      BucketPatch (first_patch cfg name); BucketPatch (second_patch cfg name) ] /\
  last (trace r) = Some (Logged ERROR (error_message (GetOrCreateBucket name) e)).
Proof. intros Hb cfg r. subst r cfg. gcs_eval; finish_eval. split_and!; reflexivity. Qed.

Lemma create_bucket_creates self name loc s fs :
  Gcs.buckets s !! name = None -> quiet 1 fs ->
  let r := create_bucket Gcs.platform self name loc {| Gcs.state := s; Gcs.faults := fs |} in
  outcome r = Ok (Gcs.loaded name (Gcs.fresh (default "US" loc))) /\
  Gcs.buckets (Gcs.state (world_after r)) = <[name := Gcs.fresh (default "US" loc)]> (Gcs.buckets s).
Proof.
  intros Hb Hq r. subst r. split_faults Hq; gcs_eval; finish_eval; split_and!; reflexivity.
Qed.

Lemma quiet_le n m fs : n <= m -> quiet m fs -> quiet n fs.
Proof.
  revert m fs. induction n as [|n IH]; intros m fs Hle H; [constructor|].
  destruct m as [|m]; [lia|]. destruct fs as [|f fs]; [apply quiet_nil|].
  unfold quiet in *. simpl in *. apply Forall_cons in H as [Hf H].
  constructor; [exact Hf|]. apply (IH m); [lia|exact H].
Qed.

Lemma default_location environ int_of_str cfg :
  environ !! "GCS_LOCATION" = None ->
  STORAGE_CONFIG environ int_of_str = Ok cfg ->
  cfg_location cfg = "asia-south1".
Proof.
  unfold STORAGE_CONFIG, result_bind, getenv. intros ->.
  destruct (int int_of_str _); [|discriminate].
  destruct (int int_of_str _); [|discriminate].
  destruct (int int_of_str _); [|discriminate].
  by intros [= <-].
Qed.

(** On any platform: once the SDK says the bucket exists, the handle is
    returned after these two calls and one log line. *)
Lemma existing_bucket_is_returned (P : Platform) (self : ServiceAccountStorage P)
    (name : string) (w w1 w2 : world P) (h : Bucket) :
  client_bucket P (client P self) name w = (Ok h, w1) ->
  bucket_exists P h w1 = (Ok true, w2) ->
  get_or_create_bucket P self name w =
    (Ok h, w2, [ Called (ClientBucket name) None; Called (BucketExists h) None;
                 Logged INFO ("Using existing bucket: " +:+ name) ]).
Proof.
  intros H1 H2. unfold get_or_create_bucket. unfold_monad. by rewrite H1, H2.
Qed.

(** C3.  When the SDK reports that the bucket exists, [get_or_create_bucket]
    returns the handle of that bucket after asking only whether it exists:
    it makes no create and no patch call.  On the concrete service this
    leaves every bucket as it was, and a second call after one that returned
    changes nothing: the service is in the same state after two calls as
    after one. *)
Theorem get_or_create_bucket_idempotent (self : ServiceAccountStorage Gcs.platform)
    (name : string) (c : Gcs.cloud) :
  (forall (P : Platform) (self' : ServiceAccountStorage P) (w w1 w2 : world P) (h : Bucket),
     client_bucket P (client P self') name w = (Ok h, w1) ->
     bucket_exists P h w1 = (Ok true, w2) ->
     get_or_create_bucket P self' name w =
       (Ok h, w2, [ Called (ClientBucket name) None; Called (BucketExists h) None;
                    Logged INFO ("Using existing bucket: " +:+ name) ])) /\
  (forall st, Gcs.buckets (Gcs.state c) !! name = Some st ->
     quiet 1 (Gcs.faults c) ->
     let r := get_or_create_bucket Gcs.platform self name c in
     outcome r = Ok (Gcs.handle name) /\
     Gcs.state (world_after r) = Gcs.state c /\
     sdk_calls (trace r) = [ClientBucket name; BucketExists (Gcs.handle name)]) /\
  (forall b, outcome (get_or_create_bucket Gcs.platform self name c) = Ok b ->
     let once := world_after (get_or_create_bucket Gcs.platform self name c) in
     quiet 1 (Gcs.faults once) ->
     let r := get_or_create_bucket Gcs.platform self name once in
     outcome r = Ok (Gcs.handle name) /\
     Gcs.state (world_after r) = Gcs.state once /\
     sdk_calls (trace r) = [ClientBucket name; BucketExists (Gcs.handle name)]).
Proof.
  split_and!.
  - intros P self'. apply existing_bucket_is_returned.
  - intros st Hb Hq. destruct c as [s fs]. by apply (get_or_create_bucket_existing _ _ _ _ st).
  - intros b Hok once Hq.
    destruct (get_or_create_bucket_ok_exists self name c b Hok) as [st Hst].
    fold once in Hst. destruct once as [s fs].
    by apply (get_or_create_bucket_existing _ _ _ _ st).
Qed.

Lemma get_or_create_bucket_idempotent_witness :
  let once := world_after (get_or_create_bucket Gcs.platform sample_self "media" sample_cloud) in
  outcome (get_or_create_bucket Gcs.platform sample_self "media" sample_cloud)
    = Ok (Gcs.loaded "media" (configured default_config)) /\
  quiet 1 (Gcs.faults once) /\
  outcome (get_or_create_bucket Gcs.platform sample_self "media" once) = Ok (Gcs.handle "media") /\
  Gcs.state (world_after (get_or_create_bucket Gcs.platform sample_self "media" once))
    = Gcs.state once.
Proof.
  intros once.
  assert (H1 : outcome (get_or_create_bucket Gcs.platform sample_self "media" sample_cloud)
               = Ok (Gcs.loaded "media" (configured default_config))) by (by vm_compute).
  assert (H2 : quiet 1 (Gcs.faults once)) by (vm_compute; constructor).
  destruct (proj2 (proj2 (get_or_create_bucket_idempotent sample_self "media" sample_cloud))
              _ H1 H2) as (H3 & H4 & _).
  split_and!; [exact H1|exact H2|exact H3|exact H4].
Defined.

(** C7.  When the bucket does not exist and no call fails,
    [get_or_create_bucket] creates it in the configured location, then
    patches the configured storage class and labels, then patches the
    configured lifecycle rules; the bucket ends with exactly these
    settings. *)
Theorem new_bucket_gets_configured_settings (self : ServiceAccountStorage Gcs.platform)
    (name : string) (c : Gcs.cloud) :
  Gcs.buckets (Gcs.state c) !! name = None ->
  quiet 4 (Gcs.faults c) ->
  let cfg := config Gcs.platform self in
  let r := get_or_create_bucket Gcs.platform self name c in
  (exists b1 b2,
     operations (trace r) =
       [ BucketExists (Gcs.handle name); BucketCreate (Gcs.handle name) (cfg_location cfg);
         BucketPatch b1; BucketPatch b2 ] /\
     storage_class b1 = Some (cfg_default_storage_class cfg) /\
     labels b1 = cfg_labels cfg /\
     lifecycle_rules b1 = [] /\
     lifecycle_rules b2 = cfg_lifecycle_rules cfg) /\
  Gcs.buckets (Gcs.state (world_after r)) !! name =
    Some {| Gcs.st_location := cfg_location cfg;
            Gcs.st_storage_class := cfg_default_storage_class cfg;
            Gcs.st_labels := cfg_labels cfg;
            Gcs.st_lifecycle := cfg_lifecycle_rules cfg;
            Gcs.st_blobs := ∅ |} /\
  exists b, outcome r = Ok b /\
    bucket_name b = name /\
    location b = Some (cfg_location cfg) /\
    storage_class b = Some (cfg_default_storage_class cfg) /\
    labels b = cfg_labels cfg /\
    lifecycle_rules b = cfg_lifecycle_rules cfg.
Proof.
  intros Hb Hq cfg r. destruct c as [s fs].
  destruct (get_or_create_bucket_creates self name s fs Hb Hq) as (Hout & Hst & Hops).
  fold cfg in Hout, Hst, Hops. fold r in Hout, Hst, Hops. split_and!.
  - exists (first_patch cfg name), (second_patch cfg name). by split_and!.
  - rewrite Hst. apply lookup_insert_eq.
  - exists (Gcs.loaded name (configured cfg)). by split_and!.
Qed.

Lemma new_bucket_gets_configured_settings_witness :
  Gcs.buckets (Gcs.state sample_cloud) !! "media" = None /\
  quiet 4 (Gcs.faults sample_cloud) /\
  Gcs.buckets (Gcs.state (world_after (get_or_create_bucket Gcs.platform sample_self "media"
                                         sample_cloud))) !! "media"
    = Some (configured default_config).
Proof.
  assert (H1 : Gcs.buckets (Gcs.state sample_cloud) !! "media" = None) by reflexivity.
  assert (H2 : quiet 4 (Gcs.faults sample_cloud)) by apply quiet_nil.
  split_and!; [exact H1|exact H2|].
  exact (proj1 (proj2 (new_bucket_gets_configured_settings sample_self "media" sample_cloud H1 H2))).
Defined.

(** C9.  With GCS_LOCATION unset, the two ways of creating a bucket that
    does not exist put it in different places: [create_bucket] without a
    location creates it in "US", [get_or_create_bucket] creates it in
    "asia-south1". *)
Theorem creation_paths_differ_in_location (environ : gmap string string)
    (int_of_str : string -> result Z) (self : ServiceAccountStorage Gcs.platform)
    (name : string) (c : Gcs.cloud) :
  environ !! "GCS_LOCATION" = None ->
  STORAGE_CONFIG environ int_of_str = Ok (config Gcs.platform self) ->
  Gcs.buckets (Gcs.state c) !! name = None ->
  quiet 4 (Gcs.faults c) ->
  let by_create := world_after (create_bucket Gcs.platform self name None c) in
  let by_get_or_create := world_after (get_or_create_bucket Gcs.platform self name c) in
  Gcs.st_location <$> Gcs.buckets (Gcs.state by_create) !! name = Some "US" /\
  Gcs.st_location <$> Gcs.buckets (Gcs.state by_get_or_create) !! name = Some "asia-south1" /\
  "US" <> "asia-south1".
Proof.
  intros Henv Hcfg Hb Hq by_create by_get_or_create. destruct c as [s fs]. split_and!.
  - destruct (create_bucket_creates self name None s fs Hb (quiet_le 1 4 fs ltac:(lia) Hq))
      as [_ Hst].
    subst by_create. rewrite Hst, lookup_insert_eq. reflexivity.
  - destruct (get_or_create_bucket_creates self name s fs Hb Hq) as (_ & Hst & _).
    subst by_get_or_create. rewrite Hst, lookup_insert_eq. simpl.
    by rewrite (default_location _ _ _ Henv Hcfg).
  - discriminate.
Qed.

Lemma creation_paths_differ_in_location_witness :
  (∅ : gmap string string) !! "GCS_LOCATION" = None /\
  STORAGE_CONFIG ∅ decimal = Ok (config Gcs.platform sample_self) /\
  Gcs.st_location <$>
    Gcs.buckets (Gcs.state (world_after (create_bucket Gcs.platform sample_self "media" None
                                           sample_cloud))) !! "media" = Some "US" /\
  Gcs.st_location <$>
    Gcs.buckets (Gcs.state (world_after (get_or_create_bucket Gcs.platform sample_self "media"
                                           sample_cloud))) !! "media" = Some "asia-south1".
Proof.
  assert (H1 : (∅ : gmap string string) !! "GCS_LOCATION" = None) by reflexivity.
  assert (H2 : STORAGE_CONFIG ∅ decimal = Ok (config Gcs.platform sample_self)) by reflexivity.
  assert (H3 : Gcs.buckets (Gcs.state sample_cloud) !! "media" = None) by reflexivity.
  assert (H4 : quiet 4 (Gcs.faults sample_cloud)) by apply quiet_nil.
  destruct (creation_paths_differ_in_location ∅ decimal sample_self "media" sample_cloud
              H1 H2 H3 H4) as (Hus & Hasia & _).
  split_and!; [exact H1|exact H2|exact Hus|exact Hasia].
Defined.

(** C10.  [get_or_create_bucket] does not undo a creation.  When the bucket
    did not exist and the first patch raises, the method logs and raises,
    and the bucket stays as created: in the configured location, with the
    service's default storage class, no labels and no lifecycle rules.
    When the second patch raises, the method logs and raises, and the bucket
    stays with the configured storage class and labels and no lifecycle
    rules. *)
Theorem creation_is_not_rolled_back (self : ServiceAccountStorage Gcs.platform)
    (name : string) (s : Gcs.store) (e : exn) (rest : list (option exn)) :
  Gcs.buckets s !! name = None ->
  let cfg := config Gcs.platform self in
  let first_fails :=
    get_or_create_bucket Gcs.platform self name
      {| Gcs.state := s; Gcs.faults := [None; None; Some e] ++ rest |} in
  let second_fails :=
    get_or_create_bucket Gcs.platform self name
      {| Gcs.state := s; Gcs.faults := [None; None; None; Some e] ++ rest |} in
  (outcome first_fails = Raise e /\
   last (trace first_fails) = Some (Logged ERROR (error_message (GetOrCreateBucket name) e)) /\
   Gcs.buckets (Gcs.state (world_after first_fails)) !! name =
     Some {| Gcs.st_location := cfg_location cfg;
             Gcs.st_storage_class := "STANDARD";
             Gcs.st_labels := ∅;
             Gcs.st_lifecycle := [];
             Gcs.st_blobs := ∅ |}) /\
  (outcome second_fails = Raise e /\
   last (trace second_fails) = Some (Logged ERROR (error_message (GetOrCreateBucket name) e)) /\
   Gcs.buckets (Gcs.state (world_after second_fails)) !! name =
     Some {| Gcs.st_location := cfg_location cfg;
             Gcs.st_storage_class := cfg_default_storage_class cfg;
             Gcs.st_labels := cfg_labels cfg;
             Gcs.st_lifecycle := [];
             Gcs.st_blobs := ∅ |}).
Proof.
  intros Hb cfg first_fails second_fails. split.
  - destruct (get_or_create_bucket_first_patch_fails self name s e rest Hb)
      as (Hout & Hst & _ & Hlast).
    fold first_fails in Hout, Hst, Hlast. split_and!; [exact Hout|exact Hlast|].
    rewrite Hst. apply lookup_insert_eq.
  - destruct (get_or_create_bucket_second_patch_fails self name s e rest Hb)
      as (Hout & Hst & _ & Hlast).
    fold second_fails in Hout, Hst, Hlast. split_and!; [exact Hout|exact Hlast|].
    rewrite Hst. apply lookup_insert_eq.
Qed.

Lemma creation_is_not_rolled_back_witness :
  Gcs.buckets sample_store !! "media" = None /\
  outcome (get_or_create_bucket Gcs.platform sample_self "media"
             {| Gcs.state := sample_store; Gcs.faults := [None; None; Some boom] |})
    = Raise boom /\
  Gcs.buckets (Gcs.state (world_after
     (get_or_create_bucket Gcs.platform sample_self "media"
        {| Gcs.state := sample_store; Gcs.faults := [None; None; Some boom] |})))
    !! "media" = Some (created default_config).
Proof.
  assert (H : Gcs.buckets sample_store !! "media" = None) by reflexivity.
  destruct (creation_is_not_rolled_back sample_self "media" sample_store boom [] H)
    as ((Hout & _ & Hst) & _).
  split_and!; [exact H|exact Hout|exact Hst].
Defined.

(** * Further properties *)

(** ** Which methods can touch a bucket's existence or settings *)

(** X1.  [get_bucket], [download_file], [delete_file], [list_files] and
    [get_signed_url] never ask the SDK to create or patch a bucket, whatever
    the SDK answers: only [create_bucket], [get_or_create_bucket] and
    [upload_file] can. *)
Theorem bucket_writes_only_by_creating_methods (P : Platform) (self : ServiceAccountStorage P)
    (m : method) (w : world P) :
  leaves_buckets m = true ->
  Forall (fun c => is_bucket_write c = false) (calls (trace (invoke P self m w))).
Proof.
  destruct m as [b|b l|b|b p|b s d|b n|b|b n]; try discriminate; intros _; simpl;
    try pose proof (get_bucket_calls P self b w) as H;
    unfold download_file, delete_file, list_files, get_signed_url; unfold fmap_M;
    run; tidy; use_inner; rewrite ?H; repeat constructor.
Qed.

Lemma bucket_writes_only_by_creating_methods_witness :
  leaves_buckets (DownloadFile "media" "report.txt" "/tmp/report.txt") = true /\
  Forall (fun c => is_bucket_write c = false)
    (calls (trace (invoke Gcs.platform sample_self
                     (DownloadFile "media" "report.txt" "/tmp/report.txt") sample_cloud))).
Proof.
  split; [reflexivity|].
  exact (bucket_writes_only_by_creating_methods Gcs.platform sample_self
           (DownloadFile "media" "report.txt" "/tmp/report.txt") sample_cloud eq_refl).
Defined.

(** Walk through the members of a concrete trace. *)
Ltac members H :=
  repeat (apply elem_of_cons in H as [H|H]; [try discriminate H|]);
  try (by apply elem_of_nil in H).

(** X2.  [get_or_create_bucket] asks for a create only after [exists] has
    answered False, always in the configured location, and asks for a patch
    only after the create has succeeded.  So a failing existence check
    creates nothing, and a failing create patches nothing. *)
Theorem create_only_after_exists_false (P : Platform) (self : ServiceAccountStorage P)
    (name : string) (w : world P) :
  let t := trace (get_or_create_bucket P self name w) in
  (forall b loc r, Called (BucketCreate b loc) r ∈ t ->
     loc = cfg_location (config P self) /\
     exists h w0 w1,
       client_bucket P (client P self) name w = (Ok h, w0) /\
       bucket_exists P h w0 = (Ok false, w1)) /\
  (forall b r, Called (BucketPatch b) r ∈ t ->
     exists b0 loc, Called (BucketCreate b0 loc) None ∈ t).
Proof.
  unfold get_or_create_bucket. run; unfold trace; simpl; split; intros;
    match goal with H : _ ∈ _ |- _ => members H end;
    try match goal with H : Called _ _ = Called _ _ |- _ => injection H as -> -> -> end;
    try (split; [reflexivity|eauto 6]);
    try (do 2 eexists; do 3 right; left).
Qed.

(** ** Failures inside a method that calls another *)

Lemma get_bucket_raise P self b w e w1 t :
  get_bucket P self b w = (Raise e, w1, t) ->
  client_get_bucket P (client P self) b w = (Raise e, w1) /\
  t = [Called (ClientGetBucket b) (Some e); Logged ERROR (error_message (GetBucket b) e)].
Proof. unfold get_bucket. run; intros [= <- <- <-]; try discriminate; done. Qed.

Lemma get_or_create_bucket_raise P self b w e w1 t :
  get_or_create_bucket P self b w = (Raise e, w1, t) ->
  errors_logged t = [error_message (GetOrCreateBucket b) e].
Proof. unfold get_or_create_bucket. run; intros [= <- <- <-]; reflexivity. Qed.

(** X3.  [upload_file] starts with [get_or_create_bucket]; [download_file]
    and [delete_file] start with [get_bucket].  When that first method
    raises [e], the outer method makes no further call and leaves the world
    as the inner one left it, but the error is logged twice: the inner
    method's line, then the outer one's.  The outer method then follows its
    own policy ([upload_file] returns [None], the other two raise [e]). *)
Theorem inner_failure_logged_twice (P : Platform) (self : ServiceAccountStorage P)
    (m m' : method) (w : world P) (e : exn) :
  inner_method m = Some m' ->
  outcome (invoke P self m' w) = Raise e ->
  errors_logged (trace (invoke P self m w)) = [error_message m' e; error_message m e] /\
  world_after (invoke P self m w) = world_after (invoke P self m' w) /\
  calls (trace (invoke P self m w)) = calls (trace (invoke P self m' w)) /\
  outcome (invoke P self m w) = policy_result m e.
Proof.
  destruct m as [b|b l|b|b p|b s d|b n|b|b n]; try discriminate; intros [= <-]; simpl.
  - unfold fmap_M, upload_file. unfold_monad.
    destruct (get_or_create_bucket P self b w) as [[[?|e'] w1] t] eqn:E; simpl; [discriminate|].
    intros [= ->]. apply get_or_create_bucket_raise in E. tidy. rewrite E, ?app_nil_r. done.
  - unfold fmap_M, download_file. unfold_monad.
    destruct (get_bucket P self b w) as [[[?|e'] w1] t] eqn:E; simpl; [discriminate|].
    intros [= ->]. apply get_bucket_raise in E as [_ ->]. tidy. done.
  - unfold fmap_M, delete_file. unfold_monad.
    destruct (get_bucket P self b w) as [[[?|e'] w1] t] eqn:E; simpl; [discriminate|].
    intros [= ->]. apply get_bucket_raise in E as [_ ->]. tidy. done.
Qed.

Lemma inner_failure_logged_twice_witness :
  inner_method (DeleteFile "media" "report.txt") = Some (GetBucket "media") /\
  outcome (invoke Gcs.platform sample_self (GetBucket "media") sample_cloud)
    = Raise (Gcs.NotFound "media") /\
  errors_logged (trace (invoke Gcs.platform sample_self (DeleteFile "media" "report.txt")
                          sample_cloud))
    = [ "Failed to get bucket media: 404 media not found";
        "Failed to delete file report.txt: 404 media not found" ].
Proof.
  assert (H : outcome (invoke Gcs.platform sample_self (GetBucket "media") sample_cloud)
              = Raise (Gcs.NotFound "media")) by (by vm_compute).
  split_and!; [reflexivity|exact H|].
  exact (proj1 (inner_failure_logged_twice Gcs.platform sample_self
                  (DeleteFile "media" "report.txt") (GetBucket "media") sample_cloud
                  (Gcs.NotFound "media") eq_refl H)).
Defined.

(** ** The constructor and the credential file *)

(** X4.  The constructor makes no call to the storage SDK.  What it calls is
    always an initial part of: open, load, close, read the project id, build
    the credentials, build the client.  Once the file has been opened it is
    closed, whether or not it could be parsed; when it cannot be opened,
    nothing else is called and the constructor logs and raises the error of
    [open]. *)
Theorem init_file_discipline (P : Platform) (cfg : Config) (root : Path) (w : world P) :
  let sa_path := root ++ ["common"; "dastavez-sa.json"] in
  let t := trace (init P cfg root w) in
  sdk_calls t = [] /\
  calls t `prefix_of`
    [Open sa_path; JsonLoad; Close; GetItem "project_id"; FromServiceAccountInfo; NewClient] /\
  (forall f w1, builtin_open P sa_path w = (Ok f, w1) ->
     exists r1 r2 after,
       t = Called (Open sa_path) None :: Called JsonLoad r1 :: Called Close r2 :: after) /\
  (forall e w1, builtin_open P sa_path w = (Raise e, w1) ->
     init P cfg root w =
       (Raise e, w1,
        [ Called (Open sa_path) (Some e);
          Logged ERROR ("Failed to initialize storage service: " +:+ str e) ])).
Proof.
  unfold init. run; unfold trace; simpl; split_and!; try reflexivity;
    try (eexists; reflexivity);
    try (intros ? ? [= <- <-]; eauto);
    try (intros ? ? [= <- <-]; reflexivity);
    intros ? ? [=].
Qed.

(** ** Blob names at the edges *)





(** ** The rest of the configuration *)

Lemma int_getenv_or_int_raise environ int_of_str key default e :
  int int_of_str (getenv_or_int environ key default) = Raise e <->
  age_rejected environ int_of_str key e.
Proof.
  unfold getenv_or_int, age_rejected. destruct (environ !! key) as [s|]; simpl.
  - split; [eauto|]. by intros (s' & [= <-] & H).
  - split; [discriminate|]. by intros (s' & [=] & _).
Qed.

(** X6.  Loading the configuration raises exactly when one of the three age
    variables is set to text that [int] rejects, and it raises the error of
    the first such variable in the order nearline, coldline, delete.  The
    string settings never make it raise. *)
Theorem STORAGE_CONFIG_raises (environ : gmap string string) (int_of_str : string -> result Z)
    (e : exn) :
  STORAGE_CONFIG environ int_of_str = Raise e <->
  age_rejected environ int_of_str "GCS_NEARLINE_AGE_DAYS" e \/
  ((exists n, age_setting environ int_of_str "GCS_NEARLINE_AGE_DAYS" 30 n) /\
   age_rejected environ int_of_str "GCS_COLDLINE_AGE_DAYS" e) \/
  ((exists n, age_setting environ int_of_str "GCS_NEARLINE_AGE_DAYS" 30 n) /\
   (exists c, age_setting environ int_of_str "GCS_COLDLINE_AGE_DAYS" 90 c) /\
   age_rejected environ int_of_str "GCS_DELETE_AGE_DAYS" e).
Proof.
  unfold STORAGE_CONFIG, result_bind.
  rewrite <- (int_getenv_or_int_raise environ int_of_str "GCS_NEARLINE_AGE_DAYS" 30).
  rewrite <- (int_getenv_or_int_raise environ int_of_str "GCS_COLDLINE_AGE_DAYS" 90).
  rewrite <- (int_getenv_or_int_raise environ int_of_str "GCS_DELETE_AGE_DAYS" 365).
  setoid_rewrite <- int_getenv_or_int.
  destruct (int int_of_str (getenv_or_int environ "GCS_NEARLINE_AGE_DAYS" 30)) as [n|e1].
  - destruct (int int_of_str (getenv_or_int environ "GCS_COLDLINE_AGE_DAYS" 90)) as [c|e2].
    + destruct (int int_of_str (getenv_or_int environ "GCS_DELETE_AGE_DAYS" 365)) as [d|e3].
      * split; [discriminate|]. intros [?|[[_ ?]|(_ & _ & ?)]]; congruence.
      * split; [intros [= ->]; eauto 10|]. intros [?|[[_ ?]|(_ & _ & ?)]]; congruence.
    + split; [intros [= ->]; eauto 10|].
      intros [?|[[_ ?]|(_ & [c ?] & _)]]; congruence.
  - split; [intros [= ->]; eauto|].
    intros [?|[[[n ?] _]|([n ?] & _)]]; congruence.
Qed.

Lemma STORAGE_CONFIG_raises_witness :
  STORAGE_CONFIG broken_environ decimal
    = Raise (Exn "ValueError" "invalid literal for int() with base 10").
Proof.
  apply (proj2 (STORAGE_CONFIG_raises broken_environ decimal
                  (Exn "ValueError" "invalid literal for int() with base 10"))).
  right. left. split.
  - exists 7%Z. reflexivity.
  - exists "ninety". split; reflexivity.
Defined.



(** ** On the concrete service: files and blobs *)

Lemma getitem_last_Some l x : last l = Some x -> getitem_last l = Ok x.
Proof. unfold getitem_last. by intros ->. Qed.

(** Run any method on the concrete service, call by call. *)
Ltac gcs_run :=
  unfold invoke, fmap_M, upload_file, download_file, delete_file, list_files, get_signed_url,
    get_or_create_bucket, create_bucket, get_bucket;
  unfold_monad;
  repeat (simpl;
          unfold Gcs.step, Gcs.do_create, Gcs.do_patch, Gcs.do_exists, Gcs.do_get_bucket,
            Gcs.do_upload, Gcs.do_download, Gcs.do_delete, Gcs.do_list_blobs, Gcs.do_sign,
            Gcs.find_blob;
          simpl;
          repeat match goal with
            | H : _ !! _ = _ |- _ => rewrite H
            | H : getitem_last _ = _ |- _ => rewrite H
            end;
          rewrite ?lookup_insert_eq, ?fresh_created, ?patched_first, ?patched_second;
          simpl).

(** What a successful upload leaves behind: the bucket, created with the
    configured settings if it was missing, holding the file under the last
    piece of its path. *)
Lemma upload_file_stores self name path s data seg :
  Gcs.files s !! path = Some data ->
  last (split "/" path) = Some seg ->
  let st0 := default (configured (config Gcs.platform self)) (Gcs.buckets s !! name) in
  let r := upload_file Gcs.platform self name path {| Gcs.state := s; Gcs.faults := [] |} in
  outcome r = Ok (Some seg) /\
  world_after r =
    {| Gcs.state :=
         Gcs.with_buckets
           (<[name := Gcs.with_blobs (<[seg := data]> (Gcs.st_blobs st0)) st0]> (Gcs.buckets s)) s;
       Gcs.faults := [] |}.
Proof.
  intros Hf Hlast st0 r. subst st0 r. apply getitem_last_Some in Hlast.
  destruct (Gcs.buckets s !! name) as [st|] eqn:Hb; gcs_run; finish_eval; done.
Qed.

(** X8.  Round trip.  When the local file exists and no call is made to
    fail, [upload_file] succeeds, whether or not the bucket existed, and
    [download_file] of the returned name from the same bucket then writes
    the file's content to the destination. *)
Theorem upload_then_download (self : ServiceAccountStorage Gcs.platform)
    (bucket_name file_path destination : string) (s : Gcs.store) (data : string) :
  Gcs.files s !! file_path = Some data ->
  let up := upload_file Gcs.platform self bucket_name file_path
              {| Gcs.state := s; Gcs.faults := [] |} in
  exists blob_name,
    outcome up = Ok (Some blob_name) /\
    let down := download_file Gcs.platform self bucket_name blob_name destination (world_after up) in
    outcome down = Ok tt /\
    Gcs.files (Gcs.state (world_after down)) !! destination = Some data.
Proof.
  intros Hf up. destruct (split_last "/" file_path) as (_ & seg & Hlast & _).
  destruct (upload_file_stores self bucket_name file_path s data seg Hf Hlast) as [Hout Hw].
  fold up in Hout, Hw. exists seg. split; [exact Hout|]. rewrite Hw. clear Hout Hw up.
  gcs_run; finish_eval; done.
Qed.

Lemma upload_then_download_witness :
  Gcs.files sample_store !! "/data/a/report.txt" = Some "first" /\
  exists blob_name,
    outcome (upload_file Gcs.platform sample_self "media" "/data/a/report.txt" sample_cloud)
      = Ok (Some blob_name) /\
    Gcs.files (Gcs.state (world_after
      (download_file Gcs.platform sample_self "media" blob_name "/tmp/copy.txt"
         (world_after (upload_file Gcs.platform sample_self "media" "/data/a/report.txt"
                         sample_cloud))))) !! "/tmp/copy.txt" = Some "first".
Proof.
  assert (H : Gcs.files sample_store !! "/data/a/report.txt" = Some "first") by reflexivity.
  split; [exact H|].
  destruct (upload_then_download sample_self "media" "/data/a/report.txt" "/tmp/copy.txt"
              sample_store "first" H) as (blob_name & Hup & _ & Hdown).
  exists blob_name. split; [exact Hup|exact Hdown].
Defined.

(** X9.  After a successful [upload_file], [list_files] of the same bucket
    returns a list that contains the returned blob name. *)
Theorem upload_then_list_files (self : ServiceAccountStorage Gcs.platform)
    (bucket_name file_path : string) (s : Gcs.store) (data : string) :
  Gcs.files s !! file_path = Some data ->
  let up := upload_file Gcs.platform self bucket_name file_path
              {| Gcs.state := s; Gcs.faults := [] |} in
  exists blob_name names,
    outcome up = Ok (Some blob_name) /\
    outcome (list_files Gcs.platform self bucket_name (world_after up)) = Ok names /\
    blob_name ∈ names.
Proof.
  intros Hf up. destruct (split_last "/" file_path) as (_ & seg & Hlast & _).
  destruct (upload_file_stores self bucket_name file_path s data seg Hf Hlast) as [Hout Hw].
  fold up in Hout, Hw. exists seg. rewrite Hw. clear Hw.
  eexists. split; [exact Hout|]. gcs_run; finish_eval. split; [reflexivity|].
  rewrite list_elem_of_fmap. eexists (bucket_blob _ seg). split; [reflexivity|].
  rewrite list_elem_of_fmap. exists (seg, data). split; [reflexivity|].
  apply elem_of_map_to_list, lookup_insert_eq.
Qed.

Lemma upload_then_list_files_witness :
  Gcs.files sample_store !! "/data/b/report.txt" = Some "second" /\
  exists blob_name names,
    outcome (upload_file Gcs.platform sample_self "media" "/data/b/report.txt" sample_cloud)
      = Ok (Some blob_name) /\
    outcome (list_files Gcs.platform sample_self "media"
               (world_after (upload_file Gcs.platform sample_self "media" "/data/b/report.txt"
                               sample_cloud))) = Ok names /\
    blob_name ∈ names.
Proof.
  assert (H : Gcs.files sample_store !! "/data/b/report.txt" = Some "second") by reflexivity.
  split; [exact H|].
  exact (upload_then_list_files sample_self "media" "/data/b/report.txt" sample_store "second" H).
Defined.

(** X10.  [delete_file] is not idempotent.  After a delete that succeeded
    (with no call made to fail), the bucket holds the same blobs but the
    deleted one, and a second delete of the same name logs and raises the
    SDK's NotFound, leaving the service as it was. *)
Theorem delete_file_twice (self : ServiceAccountStorage Gcs.platform)
    (bucket_name blob_name : string) (s : Gcs.store) :
  let first := delete_file Gcs.platform self bucket_name blob_name
                 {| Gcs.state := s; Gcs.faults := [] |} in
  outcome first = Ok tt ->
  let second := delete_file Gcs.platform self bucket_name blob_name (world_after first) in
  outcome second = Raise (Gcs.NotFound blob_name) /\
  Gcs.state (world_after second) = Gcs.state (world_after first) /\
  (exists st, Gcs.buckets s !! bucket_name = Some st /\
     Gcs.buckets (Gcs.state (world_after first)) =
       <[bucket_name := Gcs.with_blobs (delete blob_name (Gcs.st_blobs st)) st]> (Gcs.buckets s)).
Proof.
  intros first. subst first.
  destruct (Gcs.buckets s !! bucket_name) as [st|] eqn:Hb;
    [destruct (Gcs.st_blobs st !! blob_name) as [data|] eqn:Hblob|];
    gcs_run; finish_eval; try discriminate.
  intros _. rewrite lookup_delete_eq. simpl. split_and!; [done|done|eauto].
Qed.

Lemma delete_file_twice_witness :
  outcome (delete_file Gcs.platform sample_self "media" "report.txt"
             {| Gcs.state := stocked_store; Gcs.faults := [] |}) = Ok tt /\
  outcome (delete_file Gcs.platform sample_self "media" "report.txt"
             (world_after (delete_file Gcs.platform sample_self "media" "report.txt"
                             {| Gcs.state := stocked_store; Gcs.faults := [] |})))
    = Raise (Gcs.NotFound "report.txt").
Proof.
  assert (H : outcome (delete_file Gcs.platform sample_self "media" "report.txt"
                         {| Gcs.state := stocked_store; Gcs.faults := [] |}) = Ok tt)
    by (by vm_compute).
  split; [exact H|].
  exact (proj1 (delete_file_twice sample_self "media" "report.txt" stocked_store H)).
Defined.



(** X12.  With no call made to fail, [list_files] of a bucket that exists
    returns exactly the names of its blobs and logs no error; of a bucket
    that does not exist it logs the SDK's NotFound and returns the empty
    list, which is also what it returns for a bucket without blobs. *)
Theorem list_files_names_or_empty (self : ServiceAccountStorage Gcs.platform)
    (bucket_name : string) (s : Gcs.store) :
  let r := list_files Gcs.platform self bucket_name {| Gcs.state := s; Gcs.faults := [] |} in
  (forall st, Gcs.buckets s !! bucket_name = Some st ->
     exists names, outcome r = Ok names /\ errors_logged (trace r) = [] /\
       forall n, n ∈ names <-> is_Some (Gcs.st_blobs st !! n)) /\
  (Gcs.buckets s !! bucket_name = None ->
     outcome r = Ok [] /\
     errors_logged (trace r) = ["Failed to list files: " +:+ str (Gcs.NotFound bucket_name)]) /\
  (forall st, Gcs.buckets s !! bucket_name = Some st -> Gcs.st_blobs st = ∅ -> outcome r = Ok []).
Proof.
  intros r. subst r. split_and!.
  - intros st Hb. gcs_run; finish_eval. eexists. split_and!; [reflexivity|reflexivity|].
    intros n. rewrite list_elem_of_fmap. split.
    + intros (bl & -> & Hbl). apply list_elem_of_fmap in Hbl as ([k v] & -> & Hkv).
      apply elem_of_map_to_list in Hkv. simpl. eauto.
    + intros [v Hv]. exists (bucket_blob (Gcs.handle bucket_name) n). split; [reflexivity|].
      apply list_elem_of_fmap. exists (n, v). split; [reflexivity|].
      by apply elem_of_map_to_list.
  - intros Hb. gcs_run; finish_eval. done.
  - intros st Hb Hempty. gcs_run; finish_eval. rewrite Hempty, map_to_list_empty. done.
Qed.

Lemma list_files_names_or_empty_witness :
  outcome (list_files Gcs.platform sample_self "media"
             {| Gcs.state := stocked_store; Gcs.faults := [] |}) = Ok ["report.txt"] /\
  outcome (list_files Gcs.platform sample_self "media" sample_cloud) = Ok [].
Proof.
  split; [by vm_compute|].
  exact (proj1 (proj1 (proj2 (list_files_names_or_empty sample_self "media" sample_store))
                  eq_refl)).
Defined.

(** X13.  With no call made to fail, [create_bucket] creates the bucket in
    the location it is given, "US" when it is given none, if the name is
    free; if the name is taken it logs and raises the SDK's Conflict and
    changes nothing.  Unlike [get_or_create_bucket], a second
    [create_bucket] of the same name raises. *)
Theorem create_bucket_free_or_taken (self : ServiceAccountStorage Gcs.platform)
    (bucket_name : string) (location : option string) (s : Gcs.store) :
  let r := create_bucket Gcs.platform self bucket_name location
             {| Gcs.state := s; Gcs.faults := [] |} in
  (Gcs.buckets s !! bucket_name = None ->
     outcome r = Ok (Gcs.loaded bucket_name (Gcs.fresh (default "US" location))) /\
     Gcs.buckets (Gcs.state (world_after r)) !! bucket_name
       = Some (Gcs.fresh (default "US" location))) /\
  (forall st, Gcs.buckets s !! bucket_name = Some st ->
     outcome r = Raise (Gcs.Conflict bucket_name) /\
     Gcs.state (world_after r) = s /\
     errors_logged (trace r) =
       [error_message (CreateBucket bucket_name location) (Gcs.Conflict bucket_name)]).
Proof.
  intros r. subst r. split.
  - intros Hb. gcs_run; finish_eval. done.
  - intros st Hb. gcs_run; finish_eval. done.
Qed.

Lemma create_bucket_free_or_taken_witness :
  outcome (create_bucket Gcs.platform sample_self "media" (Some "EU")
             {| Gcs.state := stocked_store; Gcs.faults := [] |}) = Raise (Gcs.Conflict "media") /\
  Gcs.buckets (Gcs.state (world_after (create_bucket Gcs.platform sample_self "media" (Some "EU")
                                         sample_cloud))) !! "media" = Some (Gcs.fresh "EU").
Proof.
  split.
  - exact (proj1 (proj2 (create_bucket_free_or_taken sample_self "media" (Some "EU")
                           stocked_store) _ eq_refl)).
  - by vm_compute.
Defined.

(** X14.  [upload_file] creates the bucket before it reads the file.  When
    the bucket does not exist and the local file is missing, it returns
    [None] after logging one error, and leaves behind a new bucket with the
    configured settings and no blob. *)
Theorem upload_failure_leaves_new_bucket (self : ServiceAccountStorage Gcs.platform)
    (bucket_name file_path : string) (s : Gcs.store) :
  Gcs.buckets s !! bucket_name = None ->
  Gcs.files s !! file_path = None ->
  let r := upload_file Gcs.platform self bucket_name file_path
             {| Gcs.state := s; Gcs.faults := [] |} in
  outcome r = Ok None /\
  Gcs.buckets (Gcs.state (world_after r)) !! bucket_name
    = Some (configured (config Gcs.platform self)) /\
  errors_logged (trace r) =
    [error_message (UploadFile bucket_name file_path)
       (Exn "FileNotFoundError" "No such file or directory")].
Proof.
  intros Hb Hf r. subst r. destruct (getitem_last_split "/" file_path) as [seg Hseg].
  gcs_run; finish_eval. done.
Qed.

Lemma upload_failure_leaves_new_bucket_witness :
  Gcs.buckets sample_store !! "media" = None /\
  Gcs.files sample_store !! "/data/missing.txt" = None /\
  outcome (upload_file Gcs.platform sample_self "media" "/data/missing.txt" sample_cloud)
    = Ok None /\
  Gcs.buckets (Gcs.state (world_after (upload_file Gcs.platform sample_self "media"
                                         "/data/missing.txt" sample_cloud))) !! "media"
    = Some (configured default_config).
Proof.
  assert (H1 : Gcs.buckets sample_store !! "media" = None) by reflexivity.
  assert (H2 : Gcs.files sample_store !! "/data/missing.txt" = None) by reflexivity.
  destruct (upload_failure_leaves_new_bucket sample_self "media" "/data/missing.txt"
              sample_store H1 H2) as (Hout & Hst & _).
  split_and!; [exact H1|exact H2|exact Hout|exact Hst].
Defined.
